(** * support-flow: the Stripe tool relay and the batch-call status badges

    A shallow embedding of
      - [src/app/api/stripe/call-stripe-tool/route.ts]
        ([POST], [handleRefundRequest], [handleCaptureRequest]), and
      - [getStatusBadge] of the batch-call list page and of the batch-call
        detail page,
    together with the properties the specification states about them.

    The route handlers are [async] functions that call the payments SDK and
    two lookup helpers. They are embedded in a small monad that records every
    external call in a trace and propagates rejections, so that "the refund
    capability is not invoked" is a statement about the trace. *)

From Stdlib Require Import String Ascii List ZArith Bool Lia.
From Stdlib Require Import Floats.SpecFloat.
Import ListNotations.

Local Open Scope string_scope.
Local Open Scope Z_scope.

Set Warnings "-register-all".

(* ===================================================================== *)
(** * JavaScript values                                                   *)
(* ===================================================================== *)

Module Js.

(** A JavaScript number is an IEEE 754 binary64 value. *)
Definition number := spec_float.

Definition prec : Z := 53.
Definition emax : Z := 1024.

Definition NaN : number := S754_nan.
Definition of_Z (z : Z) : number := binary_normalize prec emax z 0 false.

(** The values a JSON request body is made of, plus [undefined] (what reading
    a missing property gives). Objects keep their own properties in order;
    the first binding of a key is the one a property read sees. *)
Inductive value : Type :=
| Undefined
| Null
| Bool (b : bool)
| Num (x : number)
| Str (s : string)
| Arr (elems : list value)
| Obj (fields : list (string * value)).

(** ToBoolean. *)
Definition number_truthy (x : number) : bool :=
  match x with
  | S754_zero _ | S754_nan => false
  | S754_infinity _ | S754_finite _ _ _ => true
  end.

Definition truthy (v : value) : bool :=
  match v with
  | Undefined | Null => false
  | Bool b => b
  | Num x => number_truthy x
  | Str s => negb (s =? "")%string
  | Arr _ | Obj _ => true
  end.

Definition nullish (v : value) : bool :=
  match v with
  | Undefined | Null => true
  | _ => false
  end.

(** [a || b] *)
Definition or_else (a b : value) : value := if truthy a then a else b.

Fixpoint lookup (k : string) (fields : list (string * value)) : option value :=
  match fields with
  | [] => None
  | (k', v) :: rest => if (k' =? k)%string then Some v else lookup k rest
  end.

(** [String.prototype.includes]: is [sub] a substring of [s]? *)
Fixpoint includes (sub s : string) : bool :=
  if prefix sub s then true
  else match s with
       | EmptyString => false
       | String _ s' => includes sub s'
       end.

(** ** [Number(string)]: StringToNumber of ECMA-262 *)

(** Strings are sequences of code units below 256. The white space among
    them: TAB, LF, VT, FF, CR, SP and NBSP. *)
Definition is_space (c : ascii) : bool :=
  let n := nat_of_ascii c in
  ((9 <=? n) && (n <=? 13))%nat || (n =? 32)%nat || (n =? 160)%nat.

Fixpoint drop_spaces (l : list ascii) : list ascii :=
  match l with
  | c :: l' => if is_space c then drop_spaces l' else l
  | [] => []
  end.

Definition trim (l : list ascii) : list ascii :=
  rev (drop_spaces (rev (drop_spaces l))).

(** The value of a digit in the given radix, if it is one. *)
Definition digit_val (radix : Z) (c : ascii) : option Z :=
  let n := Z.of_nat (nat_of_ascii c) in
  let d := if (48 <=? n) && (n <=? 57) then n - 48
           else if (97 <=? n) && (n <=? 102) then n - 87
           else if (65 <=? n) && (n <=? 70) then n - 55
           else 99 in
  if d <? radix then Some d else None.

(** Reads the longest run of digits: the number read so far, how many digits
    were read, and what is left. *)
Fixpoint read_digits (radix : Z) (l : list ascii) (acc : Z) (n : Z)
  : Z * Z * list ascii :=
  match l with
  | c :: l' =>
      match digit_val radix c with
      | Some d => read_digits radix l' (acc * radix + d) (n + 1)
      | None => (acc, n, l)
      end
  | [] => (acc, n, [])
  end.

(** The binary64 nearest to [m * 10 ^ e10] (ties to even), [m >= 0]. For a
    negative exponent the quotient is computed with more than 64 significant
    bits and a sticky bit, which rounds as the exact quotient does. *)
Definition decimal_to_number (neg : bool) (m e10 : Z) : number :=
  if m =? 0 then S754_zero neg
  else
    let sgn z := if neg then - z else z in
    if 0 <=? e10 then binary_normalize prec emax (sgn (m * 10 ^ e10)) 0 false
    else
      let d := 10 ^ (- e10) in
      let s := Z.max 0 (66 + Z.log2 d - Z.log2 m) in
      let q := (m * 2 ^ s) / d in
      let sticky := if (m * 2 ^ s) mod d =? 0 then 0 else 1 in
      binary_normalize prec emax (sgn (2 * q + sticky)) (- s - 1) false.

(** ExponentPart, when present: [e] or [E], an optional sign, digits. *)
Definition read_exponent (l : list ascii) : option (Z * list ascii) :=
  match l with
  | c :: l1 =>
      if (Ascii.eqb c "e" || Ascii.eqb c "E")%char then
        let '(neg, l2) :=
          match l1 with
          | s :: l2 =>
              if Ascii.eqb s "-"%char then (true, l2)
              else if Ascii.eqb s "+"%char then (false, l2)
              else (false, l1)
          | [] => (false, l1)
          end in
        let '(e, n, rest) := read_digits 10 l2 0 0 in
        if n =? 0 then None else Some (if neg then - e else e, rest)
      else Some (0, l)
  | [] => Some (0, [])
  end.

(** StrUnsignedDecimalLiteral, which has to use up the whole input. *)
Definition unsigned_decimal (neg : bool) (l : list ascii) : number :=
  if list_eq_dec ascii_dec l (list_ascii_of_string "Infinity")
  then S754_infinity neg
  else
    let '(ip, ni, l1) := read_digits 10 l 0 0 in
    let '(m, nf, l2) :=
      match l1 with
      | c :: l1' =>
          if Ascii.eqb c "."%char then
            let '(m, nf, l2) := read_digits 10 l1' ip 0 in (m, nf, l2)
          else (ip, 0, l1)
      | [] => (ip, 0, l1)
      end in
    if (ni =? 0) && (nf =? 0) then NaN
    else match read_exponent l2 with
         | Some (e, []) => decimal_to_number neg m (e - nf)
         | _ => NaN
         end.

Definition radix_literal (radix : Z) (l : list ascii) : number :=
  let '(m, n, rest) := read_digits radix l 0 0 in
  match rest with
  | [] => if n =? 0 then NaN else decimal_to_number false m 0
  | _ :: _ => NaN
  end.

Definition string_to_number (s : string) : number :=
  match trim (list_ascii_of_string s) with
  | [] => S754_zero false
  | c :: l =>
      if Ascii.eqb c "-"%char then unsigned_decimal true l
      else if Ascii.eqb c "+"%char then unsigned_decimal false l
      else
        match c, l with
        | "0"%char, x :: l' =>
            if (Ascii.eqb x "x" || Ascii.eqb x "X")%char then radix_literal 16 l'
            else if (Ascii.eqb x "o" || Ascii.eqb x "O")%char then radix_literal 8 l'
            else if (Ascii.eqb x "b" || Ascii.eqb x "B")%char then radix_literal 2 l'
            else unsigned_decimal false (c :: l)
        | _, _ => unsigned_decimal false (c :: l)
        end
  end.

(** ** Conversions of objects: ToPrimitive

    [Number(v)] and a template literal [`${v}`] convert an object or an array
    to a primitive first. For a plain object this calls its [toString]: the
    inherited one gives ["[object Object]"], but an own property [toString]
    of an object of a JSON body is no function, and then the conversion
    throws a [TypeError] (an own [valueOf] is passed over, the inherited one
    gives the object back, and neither helps). An array is joined with
    commas, its elements being converted in turn ([undefined] and [null] to
    the empty string), so that it throws when one of them does. Primitives
    never throw. *)
Fixpoint unprintable (v : value) : bool :=
  match v with
  | Obj fields =>
      match lookup "toString" fields with
      | Some _ => true
      | None => false
      end
  | Arr elems => existsb unprintable elems
  | _ => false
  end.

(** ** [Number(v)]

    The number a value converts to, when the conversion does not throw. An
    array is converted through its string form, the elements joined with
    commas: an empty array gives the empty string, a one-element array the
    string of its element, and a longer one a string with a comma in it,
    which is no numeric literal. The string of a number reads back as that
    number (with [-0] printed as [0]); the string of a boolean or of a plain
    object is no numeric literal. *)
Fixpoint number_of (v : value) : number :=
  match v with
  | Undefined => NaN
  | Null => S754_zero false
  | Bool b => if b then of_Z 1 else S754_zero false
  | Num x => x
  | Str s => string_to_number s
  | Arr [] => S754_zero false
  | Arr [e] =>
      match e with
      | Undefined | Null => S754_zero false
      | Num (S754_zero _) => S754_zero false
      | Num x => x
      | Str s => string_to_number s
      | Arr _ => number_of e
      | Bool _ | Obj _ => NaN
      end
  | Arr (_ :: _ :: _) => NaN
  | Obj _ => NaN
  end.

(** [Number(v)]: [None] when the conversion throws a [TypeError]. *)
Definition to_number (v : value) : option number :=
  if unprintable v then None else Some (number_of v).

Definition is_NaN (x : number) : bool :=
  match x with S754_nan => true | _ => false end.

(** [Math.round]: the integer nearest to [x], a tie going towards +infinity;
    a result of zero keeps the sign of [x]; non-finite values and integers
    are returned as they are. *)
Definition Math_round (x : number) : number :=
  match x with
  | S754_finite s m e =>
      if 0 <=? e then x
      else
        let k := - e in
        let sm := if s then Z.neg m else Z.pos m in
        let n := (2 * sm + 2 ^ k) / 2 ^ (k + 1) in
        binary_normalize prec emax n 0 s
  | _ => x
  end.

End Js.

(* ===================================================================== *)
(** * The payments SDK and the lookup helpers                             *)
(* ===================================================================== *)

(** What the route reads of the SDK's objects, with the SDK's types. *)
Module Charge.
Record t := { id : string }.
End Charge.

(** The customer [findCustomerByIdentifier] resolves to, when it finds one. *)
Module Customer.
Record t := { id : string }.
End Customer.

(** [Stripe.PaymentIntent.latest_charge : string | Stripe.Charge | null] *)
Inductive charge_ref :=
| ChargeId (s : string)
| Expanded (c : Charge.t).

Module PaymentIntent.
Record t := { latest_charge : option charge_ref }.
End PaymentIntent.

(** Modelled from the spec: the result type of [findPaymentByIdentifier]
    (declared in [@/lib/stripe]): a payment carries "a direct charge reference
    or an expanded payment-intent"; the route reads [charge?.id] and
    [paymentIntent?.latest_charge] of it. *)
Module PaymentInfo.
Record t := { charge : option Charge.t; paymentIntent : option PaymentIntent.t }.
End PaymentInfo.

(** [Stripe.ApiList<Stripe.Charge>] *)
Module ApiList.
Record t := { data : list Charge.t }.
End ApiList.

Record RefundCreateParams := {
  charge : Js.value;
  amount : Js.value;
  reason : Js.value;
  metadata : Js.value
}.

(** [captureParams], an object that has [amount_to_capture] or is empty. *)
Record CaptureParams := { amount_to_capture : option Js.number }.

(** A template literal: its fixed parts and the values substituted in it. *)
Inductive piece :=
| Lit (s : string)
| Subst (v : Js.value).

Definition template := list piece.

(** A tool of the catalog: an object of the SDK, of which the route reads
    [name] (line 67). The tools of [@stripe/agent-toolkit/openai] are in the
    format of OpenAI's function calling, see [openai_tool] below. *)
Definition Tool : Type := Js.value.

(** The tool call handed to the toolkit; [arguments] is the value that
    [JSON.stringify] is applied to. *)
Record ToolCall := {
  tc_id : template;
  tc_type : string;
  tc_name : Js.value;
  tc_arguments : Js.value
}.

(** What a [catch] clause receives: a [TypeError] of the language itself, or
    the error object a capability rejected with, of which the handlers read
    the [message] property. *)
Inductive thrown :=
| TypeError (msg : string)
| Rejected (message : Js.value).

Definition message_of (e : thrown) : Js.value :=
  match e with
  | TypeError msg => Js.Str msg
  | Rejected m => m
  end.

(** The outcome of awaiting a promise. *)
Definition outcome (A : Type) : Type := thrown + A.

(** Everything outside the route: the environment, the SDK, the helpers of
    [@/lib/stripe] and the clock. [getTools] is the catalog of the toolkit
    that line 38 builds, which is taken to be built without throwing. *)
Record World := {
  STRIPE_SECRET_KEY : option string;
  Date_now : Z;
  getTools : list Tool;
  handleToolCall : ToolCall -> outcome Js.value;
  refunds_create : RefundCreateParams -> outcome Js.value;
  paymentIntents_retrieve : Js.value -> outcome PaymentIntent.t;
  paymentIntents_capture : Js.value -> CaptureParams -> outcome Js.value;
  charges_list : string -> Z -> outcome ApiList.t;
  findCustomerByIdentifier : Js.value -> outcome (option Customer.t);
  findPaymentByIdentifier : Js.value -> outcome (option PaymentInfo.t)
}.

(** The calls that leave the route, in the order they are made. *)
Inductive event :=
| RefundsCreate (p : RefundCreateParams)
| PaymentIntentsRetrieve (id : Js.value)
| PaymentIntentsCapture (id : Js.value) (p : CaptureParams)
| ChargesList (customer : string) (limit : Z)
| FindCustomerByIdentifier (identifier : Js.value)
| FindPaymentByIdentifier (identifier : Js.value)
| HandleToolCall (tc : ToolCall)
| ConsoleError (label : string) (e : thrown).

Definition trace := list event.

(* ===================================================================== *)
(** * The monad of the handlers                                           *)
(* ===================================================================== *)

Definition M (A : Type) : Type := trace -> trace * outcome A.

Definition ret {A} (a : A) : M A := fun tr => (tr, inr a).

Definition bind {A B} (m : M A) (k : A -> M B) : M B :=
  fun tr =>
    match m tr with
    | (tr', inr a) => k a tr'
    | (tr', inl e) => (tr', inl e)
    end.

(** A step of the handler itself, which may throw. *)
Definition lift {A} (r : outcome A) : M A := fun tr => (tr, r).

(** [await] of an external call: the call is made, then it resolves or
    rejects. *)
Definition await {A} (ev : event) (r : outcome A) : M A :=
  fun tr => ((tr ++ [ev])%list, r).

Definition log (label : string) (e : thrown) : M unit :=
  fun tr => ((tr ++ [ConsoleError label e])%list, inr tt).

Definition try_catch {A} (m : M A) (handler : thrown -> M A) : M A :=
  fun tr =>
    match m tr with
    | (tr', inl e) => handler e tr'
    | (tr', inr a) => (tr', inr a)
    end.

Declare Scope route_scope.
Delimit Scope route_scope with route.
Notation "x <- m ;; k" := (bind m (fun x => k))
  (at level 100, m at next level, right associativity) : route_scope.
Notation "m ;;; k" := (bind m (fun _ => k))
  (at level 100, right associativity) : route_scope.
Local Open Scope route_scope.

Definition run {A} (m : M A) : trace * outcome A := m [].

(* ===================================================================== *)
(** * Responses                                                           *)
(* ===================================================================== *)

(** The [error] member of a body: a value, or a template literal. *)
Inductive payload :=
| Val (v : Js.value)
| Text (t : template).

Inductive body :=
| Result (result : Js.value) (message : option template)
| Error (error : payload)
| Empty.

Record Response := {
  res_body : body;
  res_status : Z;
  res_headers : list (string * string)
}.

(** [NextResponse.json(body, { status, headers })]; a status that is not
    given is 200, headers that are not given are none. *)
Definition NextResponse_json (b : body) (status : Z) (headers : list (string * string))
  : Response :=
  {| res_body := b; res_status := status; res_headers := headers |}.

Definition corsHeaders : list (string * string) :=
  [ ("Access-Control-Allow-Origin", "*");
    ("Access-Control-Allow-Methods", "POST, OPTIONS");
    ("Access-Control-Allow-Headers", "Content-Type, Authorization") ].

(** [OPTIONS] (lines 12-14): an empty body with the CORS headers. *)
Definition OPTIONS : Response := NextResponse_json Empty 200 corsHeaders.

(* ===================================================================== *)
(** * Reading the request                                                 *)
(* ===================================================================== *)

(** Reading a property of a request value. None of the keys the route reads
    ([charge_id], [amount], [toolName], ...) is a member of a primitive or of
    an array, so only an object's own properties can give a value; reading
    from [undefined] or [null] throws. *)
Definition field (v : Js.value) (k : string) : Js.value :=
  match v with
  | Js.Obj fields =>
      match Js.lookup k fields with
      | Some x => x
      | None => Js.Undefined
      end
  | _ => Js.Undefined
  end.

Definition get (v : Js.value) (k : string) : outcome Js.value :=
  if Js.nullish v
  then inl (TypeError ("Cannot read properties of undefined (reading '" ++ k ++ "')"))
  else inr (field v k).

(** [t.name] *)
Definition name (t : Tool) : Js.value := field t "name".

(** [t.name === toolName] at line 67, where [toolName] is a string or an
    array (anything else has thrown at line 61): two strings are equal when
    they are the same string, and the array of a request is no object that
    the catalog holds. *)
Definition name_is (t : Tool) (toolName : Js.value) : bool :=
  match name t, toolName with
  | Js.Str x, Js.Str y => (x =? y)%string
  | _, _ => false
  end.

(** A tool as the toolkit builds it:
    [{ type: 'function', function: { name, description, parameters } }].
    It has no [name] of its own. *)
Definition openai_tool (function : Js.value) : Tool :=
  Js.Obj [("type", Js.Str "function"); ("function", function)].

(** Evaluating a template literal converts each substituted value to a
    string, which throws for the values that cannot be converted. *)
Definition template_literal (t : template) : outcome template :=
  if existsb (fun p => match p with
                       | Subst v => Js.unprintable v
                       | Lit _ => false
                       end) t
  then inl (TypeError "Cannot convert object to primitive value")
  else inr t.

Definition string_truthy (s : string) : bool := negb (s =? "")%string.

(** A charge reference that is not the empty string is truthy. *)
Definition ref_truthy (r : charge_ref) : bool :=
  match r with
  | ChargeId s => string_truthy s
  | Expanded _ => true
  end.

(** [typeof r === 'string' ? r : r.id] *)
Definition ref_id (r : charge_ref) : string :=
  match r with
  | ChargeId s => s
  | Expanded c => Charge.id c
  end.

(** A string that may be [null] or [undefined], and [a || b] on such. *)
Definition opt_truthy (s : option string) : bool :=
  match s with
  | Some x => string_truthy x
  | None => false
  end.

Definition opt_or (a b : option string) : option string :=
  if opt_truthy a then a else b.

(* ===================================================================== *)
(** * [route.ts]                                                          *)
(* ===================================================================== *)

Section Route.

Variable w : World.

(** ** [handleRefundRequest] (lines 112-246) *)

Definition refund_input_error : string :=
  "Please provide either charge_id, payment_intent_id, customerIdentifier, or orderIdentifier".

Definition handleRefundRequest (parameters : Js.value) : M Response :=
  try_catch
    ((* 120: const { customerIdentifier, orderIdentifier, amount, reason,
              metadata } = parameters *)
     customerIdentifier <- lift (get parameters "customerIdentifier") ;;
     orderIdentifier <- lift (get parameters "orderIdentifier") ;;
     amount <- lift (get parameters "amount") ;;
     reason <- lift (get parameters "reason") ;;
     metadata <- lift (get parameters "metadata") ;;
     (* 123-131 *)
     if Js.truthy (field parameters "charge_id") then
       let args :=
         {| charge := field parameters "charge_id";
            amount := field parameters "amount";
            reason := Js.or_else (field parameters "reason")
                        (Js.Str "requested_by_customer");
            metadata := Js.or_else (field parameters "metadata") (Js.Obj []) |} in
       refund <- await (RefundsCreate args) (refunds_create w args) ;;
       ret (NextResponse_json (Result refund None) 200 corsHeaders)
     (* 133-155 *)
     else if Js.truthy (field parameters "payment_intent_id") then
       paymentIntent <-
         await (PaymentIntentsRetrieve (field parameters "payment_intent_id"))
           (paymentIntents_retrieve w (field parameters "payment_intent_id")) ;;
       match PaymentIntent.latest_charge paymentIntent with
       | Some latest_charge =>
           if negb (ref_truthy latest_charge) then
             ret (NextResponse_json
                    (Error (Val (Js.Str "Payment intent has no charge to refund")))
                    400 corsHeaders)
           else
             let chargeId := ref_id latest_charge in
             let args :=
               {| charge := Js.Str chargeId;
                  amount := field parameters "amount";
                  reason := Js.or_else (field parameters "reason")
                              (Js.Str "requested_by_customer");
                  metadata := Js.or_else (field parameters "metadata") (Js.Obj []) |} in
             refund <- await (RefundsCreate args) (refunds_create w args) ;;
             ret (NextResponse_json (Result refund None) 200 corsHeaders)
       | None =>
           ret (NextResponse_json
                  (Error (Val (Js.Str "Payment intent has no charge to refund")))
                  400 corsHeaders)
       end
     else
       let invalid_input :=
         ret (NextResponse_json (Error (Val (Js.Str refund_input_error)))
                400 corsHeaders) in
       (* 158-233 *)
       if Js.truthy customerIdentifier || Js.truthy orderIdentifier then
         (* 159-164 *)
         paymentInfo <-
           (if Js.truthy orderIdentifier
            then await (FindPaymentByIdentifier orderIdentifier)
                   (findPaymentByIdentifier w orderIdentifier)
            else ret None) ;;
         match paymentInfo with
         | None =>
             (* 167-203: !paymentInfo && customerIdentifier *)
             if Js.truthy customerIdentifier then
               customer <-
                 await (FindCustomerByIdentifier customerIdentifier)
                   (findCustomerByIdentifier w customerIdentifier) ;;
               match customer with
               | None =>
                   (* 171-174 *)
                   message <-
                     lift (template_literal [Lit "Customer not found: ";
                                             Subst customerIdentifier]) ;;
                   ret (NextResponse_json (Error (Text message)) 404 corsHeaders)
               | Some customer =>
                   charges <-
                     await (ChargesList (Customer.id customer) 10)
                       (charges_list w (Customer.id customer) 10) ;;
                   match ApiList.data charges with
                   | [] =>
                       ret (NextResponse_json
                              (Error (Val (Js.Str "No charges found for this customer")))
                              404 corsHeaders)
                   | latestCharge :: _ =>
                       let args :=
                         {| charge := Js.Str (Charge.id latestCharge);
                            amount := amount;
                            reason := Js.or_else reason (Js.Str "requested_by_customer");
                            metadata := Js.or_else metadata (Js.Obj []) |} in
                       refund <- await (RefundsCreate args) (refunds_create w args) ;;
                       ret (NextResponse_json
                              (Result refund
                                 (Some [Lit "Refund processed for customer ";
                                        Subst (Js.Str (Customer.id customer));
                                        Lit " on charge ";
                                        Subst (Js.Str (Charge.id latestCharge))]))
                              200 corsHeaders)
                   end
               end
             else invalid_input
         | Some paymentInfo =>
             (* 206-232 *)
             let chargeId :=
               opt_or
                 (option_map Charge.id (PaymentInfo.charge paymentInfo))
                 match PaymentInfo.paymentIntent paymentInfo with
                 | Some paymentIntent =>
                     match PaymentIntent.latest_charge paymentIntent with
                     | Some latest_charge =>
                         if ref_truthy latest_charge
                         then Some (ref_id latest_charge)
                         else None
                     | None => None
                     end
                 | None => None
                 end in
             match chargeId with
             | Some id =>
                 if negb (string_truthy id) then
                   ret (NextResponse_json
                          (Error (Val (Js.Str "Could not find charge to refund")))
                          400 corsHeaders)
                 else
                   let args :=
                     {| charge := Js.Str id;
                        amount := amount;
                        reason := Js.or_else reason (Js.Str "requested_by_customer");
                        metadata := Js.or_else metadata (Js.Obj []) |} in
                   refund <- await (RefundsCreate args) (refunds_create w args) ;;
                   (* 228-231 *)
                   message <-
                     lift (template_literal
                             [Lit "Refund processed for order ";
                              Subst (Js.or_else orderIdentifier (Js.Str "N/A"))]) ;;
                   ret (NextResponse_json (Result refund (Some message))
                          200 corsHeaders)
             | None =>
                 ret (NextResponse_json
                        (Error (Val (Js.Str "Could not find charge to refund")))
                        400 corsHeaders)
             end
         end
       (* 235-238 *)
       else invalid_input)
    (* 239-245 *)
    (fun error =>
       log "Error handling refund request:" error ;;;
       ret (NextResponse_json
              (Error (Val (Js.or_else (message_of error)
                             (Js.Str "Failed to process refund"))))
              500 corsHeaders)).

(** ** [handleCaptureRequest] (lines 251-293) *)

(** Lines 272-282: [amount] is [parameters.amount] when that is a number, its
    [Number(...)] when it is another truthy value, and [undefined] otherwise;
    [captureParams] gets [amount_to_capture] when [amount] is truthy and not
    NaN. [Number(...)] throws for what cannot be converted. *)
Definition captureParams_of (parameters_amount : Js.value) : outcome CaptureParams :=
  let amount : outcome (option Js.number) :=
    match parameters_amount with
    | Js.Num x => inr (Some x)
    | a =>
        if Js.truthy a then
          match Js.to_number a with
          | Some x => inr (Some x)
          | None => inl (TypeError "Cannot convert object to primitive value")
          end
        else inr None
    end in
  match amount with
  | inl e => inl e
  | inr (Some x) =>
      if Js.number_truthy x && negb (Js.is_NaN x)
      then inr {| amount_to_capture := Some (Js.Math_round x) |}
      else inr {| amount_to_capture := None |}
  | inr None => inr {| amount_to_capture := None |}
  end.

Definition handleCaptureRequest (parameters : Js.value) : M Response :=
  try_catch
    ((* 259-263 *)
     payment_intent_id <- lift (get parameters "payment_intent_id") ;;
     let paymentIntentId :=
       Js.or_else payment_intent_id
         (Js.or_else (field parameters "paymentIntentId")
            (Js.or_else (field parameters "intent_id")
               (field parameters "id"))) in
     (* 265-270 *)
     if negb (Js.truthy paymentIntentId) then
       ret (NextResponse_json
              (Error (Val (Js.Str "payment_intent_id is required to capture a payment")))
              400 corsHeaders)
     else
       (* 272-282 *)
       captureParams <- lift (captureParams_of (field parameters "amount")) ;;
       (* 284-285 *)
       captured <-
         await (PaymentIntentsCapture paymentIntentId captureParams)
           (paymentIntents_capture w paymentIntentId captureParams) ;;
       ret (NextResponse_json (Result captured None) 200 corsHeaders))
    (* 286-292 *)
    (fun error =>
       log "Error capturing payment intent:" error ;;;
       ret (NextResponse_json
              (Error (Val (Js.or_else (message_of error)
                             (Js.Str "Failed to capture payment intent"))))
              500 corsHeaders)).

End Route.

(* ===================================================================== *)
(** * [POST] (lines 16-107)                                               *)
(* ===================================================================== *)

(** [request.json()] resolves to the parsed body or rejects. *)
Record Request := { json : outcome Js.value }.

(** [v === s] for a string literal [s] *)
Definition is_string (v : Js.value) (s : string) : bool :=
  match v with
  | Js.Str x => (x =? s)%string
  | _ => false
  end.

(** [toolName.includes(sub)], for a [toolName] that is truthy (so that
    [?.] is [.]): a string looks for a substring, an array for an element,
    and nothing else that a body can hold has a callable [includes]. *)
Definition includes_method (v : Js.value) (sub : string) : outcome bool :=
  match v with
  | Js.Str s => inr (Js.includes sub s)
  | Js.Arr elems => inr (existsb (fun e => is_string e sub) elems)
  | _ => inl (TypeError "toolName.includes is not a function")
  end.

(** Where a tool name is sent. *)
Inductive handler :=
| RefundResolver
| CaptureResolver
| Catalog (tool : Tool)
| NotFound.

Section Dispatch.

Variable w : World.

Definition is_refund_alias (toolName : Js.value) : bool :=
  is_string toolName "refunds_create" || is_string toolName "create_refund"
  || is_string toolName "stripe_refunds_create".

Definition is_capture_alias (toolName : Js.value) : bool :=
  is_string toolName "paymentIntents_capture"
  || is_string toolName "capture_payment_intent"
  || is_string toolName "stripe_paymentIntents_capture"
  || is_string toolName "capturePaymentIntent"
  || is_string toolName "stripe_capture_payment_intent".

(** Lines 58-81, for a [toolName] that is truthy. *)
Definition dispatch (toolName : Js.value) : outcome handler :=
  (* 58 *)
  if is_refund_alias toolName then inr RefundResolver
  else
    (* 61 *)
    match (if is_capture_alias toolName then inr true
           else includes_method toolName "capture_payment_intent") with
    | inl e => inl e
    | inr true => inr CaptureResolver
    | inr false =>
        (* 66-67 *)
        match find (fun t => name_is t toolName) (getTools w) with
        | Some tool => inr (Catalog tool)
        | None =>
            (* 71-76 *)
            match includes_method toolName "refund" with
            | inl e => inl e
            | inr true => inr RefundResolver
            | inr false =>
                match includes_method toolName "capture" with
                | inl e => inl e
                | inr true => inr CaptureResolver
                | inr false => inr NotFound
                end
            end
        end
    end.

Definition POST (request : Request) : M Response :=
  try_catch
    ((* 18-25 *)
     if negb (opt_truthy (STRIPE_SECRET_KEY w)) then
       ret (NextResponse_json
              (Error (Val (Js.Str "STRIPE_SECRET_KEY not configured")))
              500 corsHeaders)
     else
       (* 27-28 *)
       body <- lift (json request) ;;
       toolName <- lift (get body "toolName") ;;
       parameters <- lift (get body "parameters") ;;
       (* 30-35 *)
       if negb (Js.truthy toolName) then
         ret (NextResponse_json (Error (Val (Js.Str "toolName is required")))
                400 corsHeaders)
       else
         target <- lift (dispatch toolName) ;;
         match target with
         | RefundResolver => handleRefundRequest w parameters
         | CaptureResolver => handleCaptureRequest w parameters
         | NotFound =>
             (* 77-80 *)
             message <-
               lift (template_literal [Lit "Tool "; Subst toolName; Lit " not found"]) ;;
             ret (NextResponse_json (Error (Text message)) 404 [])
         | Catalog _ =>
             (* 85-99 *)
             let toolCall :=
               {| tc_id := [Lit "call_"; Subst (Js.Num (Js.of_Z (Date_now w)))];
                  tc_type := "function";
                  tc_name := toolName;
                  tc_arguments := Js.or_else parameters (Js.Obj []) |} in
             result <- await (HandleToolCall toolCall) (handleToolCall w toolCall) ;;
             toolResult <- lift (get result "content") ;;
             ret (NextResponse_json (Result toolResult None) 200 corsHeaders)
         end)
    (* 100-106 *)
    (fun error =>
       log "Error calling Stripe tool:" error ;;;
       ret (NextResponse_json
              (Error (Val (Js.or_else (message_of error)
                             (Js.Str "Failed to call Stripe tool"))))
              500 corsHeaders)).

End Dispatch.

(* ===================================================================== *)
(** * The status badges                                                   *)
(* ===================================================================== *)

Module Badge.

(** What reading a property of an object literal can give: one of the
    literal's own strings, or a member the literal inherits from
    [Object.prototype]. *)
Inductive member :=
| Own (v : string)
| Inherited (key : string).

Definition Object_prototype : list string :=
  [ "constructor"; "__defineGetter__"; "__defineSetter__"; "hasOwnProperty";
    "__lookupGetter__"; "__lookupSetter__"; "isPrototypeOf";
    "propertyIsEnumerable"; "toString"; "valueOf"; "__proto__";
    "toLocaleString" ].

Fixpoint own_property (key : string) (literal : list (string * string))
  : option string :=
  match literal with
  | [] => None
  | (k, v) :: rest => if (k =? key)%string then Some v else own_property key rest
  end.

(** [literal[key]]: an own property first, then the prototype. *)
Definition get_property (literal : list (string * string)) (key : string)
  : option member :=
  match own_property key literal with
  | Some v => Some (Own v)
  | None =>
      if existsb (String.eqb key) Object_prototype
      then Some (Inherited key)
      else None
  end.

(** The members of [Object.prototype] are functions and, for [__proto__],
    an object: all truthy. *)
Definition member_truthy (m : option member) : bool :=
  match m with
  | Some (Own v) => string_truthy v
  | Some (Inherited _) => true
  | None => false
  end.

(** [String.prototype.replace] with a string pattern replaces the first
    occurrence only. *)
Fixpoint replace_first (c d : ascii) (s : string) : string :=
  match s with
  | EmptyString => EmptyString
  | String x s' =>
      if Ascii.eqb x c then String d s' else String x (replace_first c d s')
  end.

(** The [<span>] element: [className] is the template literal
    [`inline-flex ... font-medium ${colour}`]. *)
Record span := {
  className_fixed : string;
  className_colour : option member;
  children : string
}.

Definition fixed_classes : string :=
  "inline-flex items-center rounded-full px-2 py-1 text-xs font-medium ".

Definition yellow := "bg-yellow-100 text-yellow-800 dark:bg-yellow-900/20 dark:text-yellow-300".
Definition blue := "bg-blue-100 text-blue-800 dark:bg-blue-900/20 dark:text-blue-300".
Definition green := "bg-green-100 text-green-800 dark:bg-green-900/20 dark:text-green-300".
Definition red := "bg-red-100 text-red-800 dark:bg-red-900/20 dark:text-red-300".
Definition gray := "bg-gray-100 text-gray-800 dark:bg-gray-900/20 dark:text-gray-300".
Definition purple := "bg-purple-100 text-purple-800 dark:bg-purple-900/20 dark:text-purple-300".

(** [statusColors[status] || statusColors.pending] and the element. *)
Definition badge (statusColors : list (string * string)) (status : string) : span :=
  let looked_up := get_property statusColors status in
  {| className_fixed := fixed_classes;
     className_colour :=
       if member_truthy looked_up then looked_up
       else get_property statusColors "pending";
     children := replace_first "_" " " status |}.

End Badge.

(** [src/app/(dashboard)/outbound/page.tsx], lines 106-124 *)
Module ListPage.

Definition statusColors : list (string * string) :=
  [ ("pending", Badge.yellow);
    ("in_progress", Badge.blue);
    ("completed", Badge.green);
    ("failed", Badge.red);
    ("cancelled", Badge.gray) ].

Definition getStatusBadge (status : string) : Badge.span :=
  Badge.badge statusColors status.

End ListPage.

(** The batch-call detail page, lines 123-143 *)
Module DetailPage.

Definition statusColors : list (string * string) :=
  [ ("pending", Badge.yellow);
    ("initiated", Badge.blue);
    ("in_progress", Badge.blue);
    ("completed", Badge.green);
    ("failed", Badge.red);
    ("cancelled", Badge.gray);
    ("voicemail", Badge.purple) ].

Definition getStatusBadge (status : string) : Badge.span :=
  Badge.badge statusColors status.

End DetailPage.

(* ===================================================================== *)
(** * Vocabulary of the properties                                        *)
(* ===================================================================== *)

Definition refund_catch (e : thrown) : Response :=
  NextResponse_json
    (Error (Val (Js.or_else (message_of e) (Js.Str "Failed to process refund"))))
    500 corsHeaders.

Definition capture_catch (e : thrown) : Response :=
  NextResponse_json
    (Error (Val (Js.or_else (message_of e) (Js.Str "Failed to capture payment intent"))))
    500 corsHeaders.

(** After the calls [before], the refund [args] is requested and its result
    relayed with [message]; a rejection is logged and answered with 500. *)
Definition refund_issued (w : World) (before : trace) (args : RefundCreateParams)
    (message : option template) : trace * outcome Response :=
  match refunds_create w args with
  | inr refund =>
      ((before ++ [RefundsCreate args])%list,
       inr (NextResponse_json (Result refund message) 200 corsHeaders))
  | inl e =>
      ((before ++ [RefundsCreate args;
                   ConsoleError "Error handling refund request:" e])%list,
       inr (refund_catch e))
  end.

(** The capture [p] of [id] is requested and its result relayed. *)
Definition capture_issued (w : World) (id : Js.value) (p : CaptureParams)
  : trace * outcome Response :=
  match paymentIntents_capture w id p with
  | inr captured =>
      ([PaymentIntentsCapture id p],
       inr (NextResponse_json (Result captured None) 200 corsHeaders))
  | inl e =>
      ([PaymentIntentsCapture id p;
        ConsoleError "Error capturing payment intent:" e],
       inr (capture_catch e))
  end.

(** The capture of [id] with the parameters made from the amount: when
    making them throws, nothing is called and the catch answers. *)
Definition capture_attempted (w : World) (id : Js.value) (p : outcome CaptureParams)
  : trace * outcome Response :=
  match p with
  | inr captureParams => capture_issued w id captureParams
  | inl e =>
      ([ConsoleError "Error capturing payment intent:" e], inr (capture_catch e))
  end.

(** The refund parameters the branches build from the request. *)
Definition refund_args (parameters : Js.value) (charge : Js.value)
  : RefundCreateParams :=
  {| charge := charge;
     amount := field parameters "amount";
     reason := Js.or_else (field parameters "reason") (Js.Str "requested_by_customer");
     metadata := Js.or_else (field parameters "metadata") (Js.Obj []) |}.

Definition is_refund (ev : event) : bool :=
  match ev with
  | RefundsCreate _ => true
  | _ => false
  end.

(** The events that are calls of a capability: all but the logging. *)
Definition is_capability (ev : event) : bool :=
  match ev with
  | ConsoleError _ _ => false
  | _ => true
  end.

Definition capability_calls (tr : trace) : trace := filter is_capability tr.

(** The handler refunds exactly the charge [c]: of all capabilities it calls
    the refund creation only, once, with [c]. *)
Definition refunds_exactly (w : World) (parameters : Js.value) (c : Js.value) : Prop :=
  exists args,
    charge args = c /\
    capability_calls (fst (run (handleRefundRequest w parameters)))
    = [RefundsCreate args].

Definition invalid_input : Response :=
  NextResponse_json (Error (Val (Js.Str refund_input_error))) 400 corsHeaders.

Definition invalid_state : Response :=
  NextResponse_json (Error (Val (Js.Str "Payment intent has no charge to refund")))
    400 corsHeaders.

Definition customer_not_found (customerIdentifier : Js.value) : Response :=
  NextResponse_json
    (Error (Text [Lit "Customer not found: "; Subst customerIdentifier]))
    404 corsHeaders.

Definition no_charges : Response :=
  NextResponse_json (Error (Val (Js.Str "No charges found for this customer")))
    404 corsHeaders.

Definition intent_required : Response :=
  NextResponse_json
    (Error (Val (Js.Str "payment_intent_id is required to capture a payment")))
    400 corsHeaders.

Definition tool_not_found (toolName : Js.value) : Response :=
  NextResponse_json
    (Error (Text [Lit "Tool "; Subst toolName; Lit " not found"])) 404 [].

(** The four names a payment-intent id is accepted under, in the order they
    are tried, and the first of them that holds a truthy value. *)
Definition intent_aliases : list string :=
  ["payment_intent_id"; "paymentIntentId"; "intent_id"; "id"].

Definition supplied_intent (parameters : Js.value) : option Js.value :=
  find Js.truthy (map (field parameters) intent_aliases).

Definition in_catalog (w : World) (toolName : string) : bool :=
  existsb (fun t => name_is t (Js.Str toolName)) (getTools w).

(** A request body [{ toolName, parameters }]. *)
Definition call_body (toolName : string) (parameters : Js.value) : Js.value :=
  Js.Obj [("toolName", Js.Str toolName); ("parameters", parameters)].

(** ** A world to run the handlers in *)

Module Demo.

Definition retrieve (id : Js.value) : outcome PaymentIntent.t :=
  if is_string id "pi_paid"
  then inr {| PaymentIntent.latest_charge := Some (ChargeId "ch_paid") |}
  else if is_string id "pi_new"
  then inr {| PaymentIntent.latest_charge := None |}
  else inl (Rejected (Js.Str "No such payment_intent")).

Definition list_charges (customer : string) (limit : Z) : outcome ApiList.t :=
  if (customer =? "cus_ann")%string
  then inr {| ApiList.data := [ {| Charge.id := "ch_a2" |}; {| Charge.id := "ch_a1" |} ] |}
  else inr {| ApiList.data := [] |}.

Definition find_customer (identifier : Js.value) : outcome (option Customer.t) :=
  if is_string identifier "ann@example.com"
  then inr (Some {| Customer.id := "cus_ann" |})
  else if is_string identifier "bob@example.com"
  then inr (Some {| Customer.id := "cus_bob" |})
  else inr None.

Definition find_payment (identifier : Js.value) : outcome (option PaymentInfo.t) :=
  if is_string identifier "order_1"
  then inr (Some {| PaymentInfo.charge := Some {| Charge.id := "ch_o1" |};
                    PaymentInfo.paymentIntent := None |})
  else inr None.

(** A tool that has a [name] of its own, as the lookup of line 67 expects
    one. The toolkit builds no such tool (see [Demo2.toolkit] for its
    catalog); a world that holds some shows what the lookup would do with
    them. *)
Definition named_tool (n : string) : Tool := Js.Obj [("name", Js.Str n)].

Definition world : World :=
  {| STRIPE_SECRET_KEY := Some "sk_test_1";
     Date_now := 1700000000000;
     getTools := [ named_tool "create_refund"; named_tool "list_customers" ];
     handleToolCall := fun _ => inr (Js.Obj [("content", Js.Str "[]")]);
     refunds_create := fun p => inr (Js.Obj [("object", Js.Str "refund"); ("charge", charge p)]);
     paymentIntents_retrieve := retrieve;
     paymentIntents_capture := fun id _ => inr (Js.Obj [("id", id)]);
     charges_list := list_charges;
     findCustomerByIdentifier := find_customer;
     findPaymentByIdentifier := find_payment |}.

(** The same world with one more tool in the catalog. *)
Definition world_with_tool (tool : string) : World :=
  {| STRIPE_SECRET_KEY := STRIPE_SECRET_KEY world;
     Date_now := Date_now world;
     getTools := named_tool tool :: getTools world;
     handleToolCall := handleToolCall world;
     refunds_create := refunds_create world;
     paymentIntents_retrieve := paymentIntents_retrieve world;
     paymentIntents_capture := paymentIntents_capture world;
     charges_list := charges_list world;
     findCustomerByIdentifier := findCustomerByIdentifier world;
     findPaymentByIdentifier := findPaymentByIdentifier world |}.

Definition request (toolName : string) (fields : list (string * Js.value)) : Request :=
  {| json := inr (call_body toolName (Js.Obj fields)) |}.

(** Parameter sets. *)
Definition by_charge : list (string * Js.value) :=
  [("charge_id", Js.Str "ch_1"); ("payment_intent_id", Js.Str "pi_paid");
   ("customerIdentifier", Js.Str "ann@example.com"); ("amount", Js.Num (Js.of_Z 500))].

Definition empty_charge_id : list (string * Js.value) :=
  [("charge_id", Js.Str ""); ("payment_intent_id", Js.Str "pi_paid")].

Definition by_new_intent : list (string * Js.value) :=
  [("payment_intent_id", Js.Str "pi_new")].

Definition by_customer (identifier : string) : list (string * Js.value) :=
  [("customerIdentifier", Js.Str identifier); ("reason", Js.Str "duplicate")].

Definition by_order : list (string * Js.value) :=
  [("orderIdentifier", Js.Str "order_9")].

Definition no_identifier : list (string * Js.value) :=
  [("amount", Js.Num (Js.of_Z 500)); ("reason", Js.Str "duplicate")].

Definition capture_of (amount : string) : list (string * Js.value) :=
  [("intent_id", Js.Str "pi_auth"); ("amount", Js.Str amount)].

End Demo.

(* ===================================================================== *)
(** * More vocabulary for the route                                       *)
(* ===================================================================== *)

Definition is_capture (ev : event) : bool :=
  match ev with
  | PaymentIntentsCapture _ _ => true
  | _ => false
  end.

Definition not_configured : Response :=
  NextResponse_json (Error (Val (Js.Str "STRIPE_SECRET_KEY not configured")))
    500 corsHeaders.

Definition tool_name_required : Response :=
  NextResponse_json (Error (Val (Js.Str "toolName is required"))) 400 corsHeaders.

Definition no_charge_found : Response :=
  NextResponse_json (Error (Val (Js.Str "Could not find charge to refund")))
    400 corsHeaders.

Definition post_catch (e : thrown) : Response :=
  NextResponse_json
    (Error (Val (Js.or_else (message_of e) (Js.Str "Failed to call Stripe tool"))))
    500 corsHeaders.

(** The tool call lines 85-92 build. *)
Definition is_tool_call (ev : event) : bool :=
  match ev with
  | HandleToolCall _ => true
  | _ => false
  end.

Definition tool_call_of (w : World) (toolName parameters : Js.value) : ToolCall :=
  {| tc_id := [Lit "call_"; Subst (Js.Num (Js.of_Z (Date_now w)))];
     tc_type := "function";
     tc_name := toolName;
     tc_arguments := Js.or_else parameters (Js.Obj []) |}.

(** Values that are truthy and have no [includes] to call. *)
Definition lacks_includes (v : Js.value) : bool :=
  match v with
  | Js.Num _ | Js.Bool _ | Js.Obj _ => Js.truthy v
  | _ => false
  end.

(* ===================================================================== *)
(** * The batch-call pages                                                *)
(* ===================================================================== *)

(** ** Strings in the pages

    [toLowerCase] on code units below 256: the letters A-Z and the capital
    letters of Latin-1 (192-222 but for 215, the multiplication sign). *)
Module JsString.

Definition lower_unit (c : ascii) : ascii :=
  let n := nat_of_ascii c in
  if ((65 <=? n) && (n <=? 90))%nat
     || ((192 <=? n) && (n <=? 222) && negb (n =? 215))%nat
  then ascii_of_nat (n + 32)
  else c.

Fixpoint toLowerCase (s : string) : string :=
  match s with
  | EmptyString => EmptyString
  | String c s' => String (lower_unit c) (toLowerCase s')
  end.

End JsString.

(** ** What the pages do to the browser *)
Module Ui.

(** What [fetch] resolves to: [ok], and what [json()] of it resolves to. *)
Record FetchResponse := { ok : bool; body_json : outcome Js.value }.

Record Browser := {
  fetch : string -> string -> outcome FetchResponse;
  confirm : string -> bool
}.

Inductive event :=
| Fetch (url method : string)
| Confirm (message : string)
| Alert (message : Js.value)
| RouterPush (href : string)
| ConsoleError (label : string) (e : thrown).

(** A handler of a page: it changes the component's state, talks to the
    browser, and may throw. *)
Definition M (S A : Type) : Type := S * list event -> (S * list event) * outcome A.

Definition ret {S A} (a : A) : M S A := fun st => (st, inr a).

Definition bind {S A B} (m : M S A) (k : A -> M S B) : M S B :=
  fun st =>
    match m st with
    | (st', inr a) => k a st'
    | (st', inl e) => (st', inl e)
    end.

Definition throw {S A} (e : thrown) : M S A := fun st => (st, inl e).

Definition lift {S A} (r : outcome A) : M S A := fun st => (st, r).

Definition emit {S} (ev : event) : M S unit :=
  fun st => ((fst st, (snd st ++ [ev])%list), inr tt).

(** A state setter. *)
Definition set {S} (f : S -> S) : M S unit :=
  fun st => ((f (fst st), snd st), inr tt).

Definition state {S} : M S S := fun st => (st, inr (fst st)).

Definition try_catch {S A} (m : M S A) (handler : thrown -> M S A) : M S A :=
  fun st =>
    match m st with
    | (st', inl e) => handler e st'
    | (st', inr a) => (st', inr a)
    end.

Definition finally {S A} (m : M S A) (f : M S unit) : M S A :=
  fun st =>
    match m st with
    | (st', r) =>
        match f st' with
        | (st'', inr _) => (st'', r)
        | (st'', inl e) => (st'', inl e)
        end
    end.

(** [await fetch(url, { method })] *)
Definition do_fetch {S} (b : Browser) (url method : string) : M S FetchResponse :=
  bind (emit (Fetch url method)) (fun _ => lift (fetch b url method)).

(** [confirm(message)] *)
Definition do_confirm {S} (b : Browser) (message : string) : M S bool :=
  bind (emit (Confirm message)) (fun _ => ret (confirm b message)).

(** Runs a handler from a state, with nothing done yet. *)
Definition run {S A} (m : M S A) (s : S) : (S * list event) * outcome A := m (s, []).

Definition state_after {S A} (m : M S A) (s : S) : S := fst (fst (run m s)).

Definition events_of {S A} (m : M S A) (s : S) : list event := snd (fst (run m s)).

Definition is_fetch (ev : event) : bool :=
  match ev with
  | Fetch _ _ => true
  | _ => false
  end.

End Ui.

Declare Scope ui_scope.
Delimit Scope ui_scope with ui.
Notation "x <- m ;; k" := (Ui.bind m (fun x => k))
  (at level 100, m at next level, right associativity) : ui_scope.
Notation "m ;;; k" := (Ui.bind m (fun _ => k))
  (at level 100, right associativity) : ui_scope.

(** The [BatchCall] interface of both pages. *)
Module BatchCall.
Record t := {
  id : string;
  name : string;
  agent_id : string;
  agent_name : string;
  created_at_unix : Js.number;
  scheduled_time_unix : Js.number;
  total_calls_dispatched : Js.number;
  total_calls_scheduled : Js.number;
  last_updated_at_unix : Js.number;
  status : string;
  phone_number_id : option string;
  phone_provider : option string
}.
End BatchCall.

(** The [Recipient] interface of the detail page. *)
Module Recipient.
Record t := {
  id : string;
  phone_number : option string;
  whatsapp_user_id : option string;
  status : string;
  conversation_id : option string;
  created_at_unix : Js.number;
  updated_at_unix : Js.number
}.
End Recipient.

(** What both pages render. *)
Module View.

(** [format(new Date(unix * 1000), pattern)] of date-fns, not unfolded. *)
Inductive date_text :=
| Formatted (milliseconds : Js.number) (pattern : string).

Definition format_unix (unix : Js.number) (pattern : string) : date_text :=
  Formatted (SFmul Js.prec Js.emax unix (Js.of_Z 1000)) pattern.

(** The actions offered on a batch call. *)
Inductive action :=
| ViewDetails (href : string)
| Retry
| Cancel.

(** [status === 'failed' || status === 'completed'] shows Retry,
    [status === 'pending' || status === 'in_progress'] shows Cancel. *)
Definition retry_shown (status : string) : bool :=
  (status =? "failed")%string || (status =? "completed")%string.

Definition cancel_shown (status : string) : bool :=
  (status =? "pending")%string || (status =? "in_progress")%string.

Definition status_actions (status : string) : list action :=
  ((if retry_shown status then [Retry] else [])
   ++ (if cancel_shown status then [Cancel] else []))%list.

(** [agent_name || agent_id] *)
Definition agent_label (b : BatchCall.t) : string :=
  if string_truthy (BatchCall.agent_name b)
  then BatchCall.agent_name b
  else BatchCall.agent_id b.

End View.

(** ** [OutboundPage], the list page *)
Module OutboundPage.

Record State := {
  batchCalls : Js.value;
  loading : bool;
  searchQuery : string
}.

Definition setBatchCalls (v : Js.value) (s : State) : State :=
  {| batchCalls := v; loading := loading s; searchQuery := searchQuery s |}.

Definition setLoading (l : bool) (s : State) : State :=
  {| batchCalls := batchCalls s; loading := l; searchQuery := searchQuery s |}.

Definition setSearchQuery (q : string) (s : State) : State :=
  {| batchCalls := batchCalls s; loading := loading s; searchQuery := q |}.

(** Lines 43-45 *)
Definition initial : State :=
  {| batchCalls := Js.Arr []; loading := true; searchQuery := "" |}.

Section Handlers.

Variable b : Ui.Browser.

Local Open Scope ui_scope.

(** Lines 51-66 *)
Definition loadBatchCalls : Ui.M State unit :=
  Ui.finally
    (Ui.try_catch
       (Ui.set (setLoading true) ;;;
        response <- Ui.do_fetch b "/api/batch-calls" "GET" ;;
        if negb (Ui.ok response) then
          Ui.throw (Rejected (Js.Str "Failed to fetch batch calls"))
        else
          data <- Ui.lift (Ui.body_json response) ;;
          batch_calls <- Ui.lift (get data "batch_calls") ;;
          Ui.set (setBatchCalls (Js.or_else batch_calls (Js.Arr []))))
       (fun error =>
          Ui.emit (Ui.ConsoleError "Error loading batch calls:" error) ;;;
          Ui.set (setBatchCalls (Js.Arr []))))
    (Ui.set (setLoading false)).

(** Lines 68-87; [loadBatchCalls()] is called without [await] and catches
    what it throws, so that nothing of it reaches the [catch] here. *)
Definition handleCancel (batchId : string) : Ui.M State unit :=
  confirmed <- Ui.do_confirm b "Are you sure you want to cancel this batch call?" ;;
  if negb confirmed then Ui.ret tt
  else
    Ui.try_catch
      (response <- Ui.do_fetch b ("/api/batch-calls/" ++ batchId) "DELETE" ;;
       if negb (Ui.ok response) then
         Ui.throw (Rejected (Js.Str "Failed to cancel batch call"))
       else loadBatchCalls)
      (fun error =>
         Ui.emit (Ui.ConsoleError "Error cancelling batch call:" error) ;;;
         Ui.emit (Ui.Alert (Js.or_else (message_of error)
                              (Js.Str "Failed to cancel batch call")))).

(** Lines 89-104 *)
Definition handleRetry (batchId : string) : Ui.M State unit :=
  Ui.try_catch
    (response <- Ui.do_fetch b ("/api/batch-calls/" ++ batchId ++ "/retry") "POST" ;;
     if negb (Ui.ok response) then
       Ui.throw (Rejected (Js.Str "Failed to retry batch call"))
     else loadBatchCalls)
    (fun error =>
       Ui.emit (Ui.ConsoleError "Error retrying batch call:" error) ;;;
       Ui.emit (Ui.Alert (Js.or_else (message_of error)
                            (Js.Str "Failed to retry batch call")))).

End Handlers.

(** Lines 126-128 *)
Definition matches (searchQuery : string) (batch : BatchCall.t) : bool :=
  Js.includes (JsString.toLowerCase searchQuery)
    (JsString.toLowerCase (BatchCall.name batch)).

Definition filteredBatchCalls (batchCalls : list BatchCall.t) (searchQuery : string)
  : list BatchCall.t :=
  filter (matches searchQuery) batchCalls.

(** A row of the table, lines 196-236. *)
Record Row := {
  key : string;
  name_cell : string;
  agent_cell : string;
  status_cell : Badge.span;
  calls_cell : Js.number * Js.number;
  created_cell : View.date_text;
  menu : list View.action
}.

Definition row (batch : BatchCall.t) : Row :=
  {| key := BatchCall.id batch;
     name_cell := BatchCall.name batch;
     agent_cell := View.agent_label batch;
     status_cell := ListPage.getStatusBadge (BatchCall.status batch);
     calls_cell := (BatchCall.total_calls_dispatched batch,
                    BatchCall.total_calls_scheduled batch);
     created_cell := View.format_unix (BatchCall.created_at_unix batch)
                       "MMM d, yyyy, h:mm a";
     menu := View.ViewDetails ("/outbound/" ++ BatchCall.id batch)
             :: View.status_actions (BatchCall.status batch) |}.




End OutboundPage.

(** ** [BatchCallDetailPage], the detail page *)
Module BatchCallDetailPage.

Record State := {
  batchCall : Js.value;
  loading : bool;
  batchId : string
}.

Definition setBatchCall (v : Js.value) (s : State) : State :=
  {| batchCall := v; loading := loading s; batchId := batchId s |}.

Definition setLoading (l : bool) (s : State) : State :=
  {| batchCall := batchCall s; loading := l; batchId := batchId s |}.

Definition setBatchId (i : string) (s : State) : State :=
  {| batchCall := batchCall s; loading := loading s; batchId := i |}.

(** Lines 48-50 *)
Definition initial : State :=
  {| batchCall := Js.Null; loading := true; batchId := "" |}.

Section Handlers.

Variable b : Ui.Browser.

Local Open Scope ui_scope.

(** Lines 66-81 *)
Definition loadBatchCall : Ui.M State unit :=
  s <- Ui.state ;;
  if negb (string_truthy (batchId s)) then Ui.ret tt
  else
    Ui.finally
      (Ui.try_catch
         (Ui.set (setLoading true) ;;;
          response <- Ui.do_fetch b ("/api/batch-calls/" ++ batchId s) "GET" ;;
          if negb (Ui.ok response) then
            Ui.throw (Rejected (Js.Str "Failed to fetch batch call"))
          else
            data <- Ui.lift (Ui.body_json response) ;;
            Ui.set (setBatchCall data))
         (fun error =>
            Ui.emit (Ui.ConsoleError "Error loading batch call:" error)))
      (Ui.set (setLoading false)).

(** Lines 83-103 *)
Definition handleCancel : Ui.M State unit :=
  s <- Ui.state ;;
  if negb (string_truthy (batchId s)) then Ui.ret tt
  else
    confirmed <- Ui.do_confirm b "Are you sure you want to cancel this batch call?" ;;
    if negb confirmed then Ui.ret tt
    else
      Ui.try_catch
        (response <- Ui.do_fetch b ("/api/batch-calls/" ++ batchId s) "DELETE" ;;
         if negb (Ui.ok response) then
           Ui.throw (Rejected (Js.Str "Failed to cancel batch call"))
         else Ui.emit (Ui.RouterPush "/outbound"))
        (fun error =>
           Ui.emit (Ui.ConsoleError "Error cancelling batch call:" error) ;;;
           Ui.emit (Ui.Alert (Js.or_else (message_of error)
                                (Js.Str "Failed to cancel batch call")))).

(** Lines 105-121 *)
Definition handleRetry : Ui.M State unit :=
  s <- Ui.state ;;
  if negb (string_truthy (batchId s)) then Ui.ret tt
  else
    Ui.try_catch
      (response <-
         Ui.do_fetch b ("/api/batch-calls/" ++ batchId s ++ "/retry") "POST" ;;
       if negb (Ui.ok response) then
         Ui.throw (Rejected (Js.Str "Failed to retry batch call"))
       else loadBatchCall)
      (fun error =>
         Ui.emit (Ui.ConsoleError "Error retrying batch call:" error) ;;;
         Ui.emit (Ui.Alert (Js.or_else (message_of error)
                              (Js.Str "Failed to retry batch call")))).

End Handlers.










End BatchCallDetailPage.

(** ** A browser to run the pages in *)
Module DemoUi.

Definition two_batches : Js.value :=
  Js.Obj [("batch_calls",
           Js.Arr [Js.Obj [("id", Js.Str "b1"); ("name", Js.Str "Spring Sale")];
                   Js.Obj [("id", Js.Str "b2"); ("name", Js.Str "Renewals")]])].

(** The backend answers the listing and the batch [b1]; it refuses to cancel
    [b2], and the network fails on the retry of [b2]. *)
Definition browser (agree : bool) : Ui.Browser :=
  {| Ui.fetch := fun url method =>
       if (url =? "/api/batch-calls")%string
       then inr {| Ui.ok := true; Ui.body_json := inr two_batches |}
       else if (url =? "/api/batch-calls/b1")%string
       then inr {| Ui.ok := true;
                   Ui.body_json := inr (Js.Obj [("id", Js.Str "b1")]) |}
       else if (url =? "/api/batch-calls/b1/retry")%string
       then inr {| Ui.ok := true; Ui.body_json := inr (Js.Obj []) |}
       else if (url =? "/api/batch-calls/b2/retry")%string
       then inl (Rejected (Js.Str "Failed to fetch"))
       else inr {| Ui.ok := false; Ui.body_json := inr Js.Null |};
     Ui.confirm := fun _ => agree |}.

Definition offline : Ui.Browser :=
  {| Ui.fetch := fun _ _ => inl (Rejected (Js.Str "Failed to fetch"));
     Ui.confirm := fun _ => true |}.

Definition batch (id name status : string) : BatchCall.t :=
  {| BatchCall.id := id;
     BatchCall.name := name;
     BatchCall.agent_id := "agent_1";
     BatchCall.agent_name := "";
     BatchCall.created_at_unix := Js.of_Z 1700000000;
     BatchCall.scheduled_time_unix := Js.of_Z 1700000600;
     BatchCall.total_calls_dispatched := Js.of_Z 3;
     BatchCall.total_calls_scheduled := Js.of_Z 5;
     BatchCall.last_updated_at_unix := Js.of_Z 1700000900;
     BatchCall.status := status;
     BatchCall.phone_number_id := None;
     BatchCall.phone_provider := None |}.

Definition batches : list BatchCall.t :=
  [ batch "b1" "Spring Sale" "completed";
    batch "b2" "Renewals" "in_progress";
    batch "b3" "spring follow-up" "pending" ].

(** The detail page showing the batch call [id]. *)
Definition showing (id : string) : BatchCallDetailPage.State :=
  {| BatchCallDetailPage.batchCall := Js.Obj [("id", Js.Str id)];
     BatchCallDetailPage.loading := false;
     BatchCallDetailPage.batchId := id |}.


End DemoUi.

(** More of the demo world of the route. *)
Module Demo2.

Definition by_paid_intent : list (string * Js.value) :=
  [("payment_intent_id", Js.Str "pi_paid"); ("orderIdentifier", Js.Str "order_1")].

Definition by_lost_intent : list (string * Js.value) :=
  [("payment_intent_id", Js.Str "pi_lost")].

Definition by_order_and_customer (order customer : string)
  : list (string * Js.value) :=
  [("orderIdentifier", Js.Str order); ("customerIdentifier", Js.Str customer)].

Definition find_payment (identifier : Js.value) : outcome (option PaymentInfo.t) :=
  if is_string identifier "order_pi"
  then inr (Some {| PaymentInfo.charge := None;
                    PaymentInfo.paymentIntent :=
                      Some {| PaymentIntent.latest_charge :=
                                Some (Expanded {| Charge.id := "ch_x" |}) |} |})
  else if is_string identifier "order_bare"
  then inr (Some {| PaymentInfo.charge := None; PaymentInfo.paymentIntent := None |})
  else if is_string identifier "order_empty"
  then inr (Some {| PaymentInfo.charge := Some {| Charge.id := "" |};
                    PaymentInfo.paymentIntent :=
                      Some {| PaymentIntent.latest_charge :=
                                Some (ChargeId "ch_y") |} |})
  else inr None.

(** The demo world with another payment lookup. *)
Definition world : World :=
  {| STRIPE_SECRET_KEY := STRIPE_SECRET_KEY Demo.world;
     Date_now := Date_now Demo.world;
     getTools := getTools Demo.world;
     handleToolCall := handleToolCall Demo.world;
     refunds_create := refunds_create Demo.world;
     paymentIntents_retrieve := paymentIntents_retrieve Demo.world;
     paymentIntents_capture := paymentIntents_capture Demo.world;
     charges_list := charges_list Demo.world;
     findCustomerByIdentifier := findCustomerByIdentifier Demo.world;
     findPaymentByIdentifier := find_payment |}.

(** A catalog as the toolkit builds it: each tool is a function of OpenAI's
    format, its name inside [function]. *)
Definition toolkit_function (n description : string) : Js.value :=
  Js.Obj [("name", Js.Str n);
          ("description", Js.Str description);
          ("parameters", Js.Obj [("type", Js.Str "object")])].

Definition toolkit_functions : list Js.value :=
  [ toolkit_function "create_refund" "Refund a payment intent";
    toolkit_function "list_customers" "List the customers";
    toolkit_function "list_payment_intents" "List the payment intents" ].

(** The demo world with that catalog. *)
Definition toolkit : World :=
  {| STRIPE_SECRET_KEY := STRIPE_SECRET_KEY Demo.world;
     Date_now := Date_now Demo.world;
     getTools := map openai_tool toolkit_functions;
     handleToolCall := handleToolCall Demo.world;
     refunds_create := refunds_create Demo.world;
     paymentIntents_retrieve := paymentIntents_retrieve Demo.world;
     paymentIntents_capture := paymentIntents_capture Demo.world;
     charges_list := charges_list Demo.world;
     findCustomerByIdentifier := findCustomerByIdentifier Demo.world;
     findPaymentByIdentifier := findPaymentByIdentifier Demo.world |}.

(** Capture parameters: the id is under the second and the fourth alias,
    the first alias is empty. *)
Definition capture_by_alias : list (string * Js.value) :=
  [("id", Js.Str "pi_c"); ("payment_intent_id", Js.Str "");
   ("paymentIntentId", Js.Str "pi_b"); ("amount", Js.Num (Js.of_Z 20))].

(** An amount that [Number] cannot convert: [{ "toString": 1 }]. *)
Definition capture_unprintable_amount : list (string * Js.value) :=
  [("intent_id", Js.Str "pi_auth");
   ("amount", Js.Obj [("toString", Js.Num (Js.of_Z 1))])].

(** The demo world without the secret key. *)
Definition unconfigured : World :=
  {| STRIPE_SECRET_KEY := None;
     Date_now := Date_now Demo.world;
     getTools := getTools Demo.world;
     handleToolCall := handleToolCall Demo.world;
     refunds_create := refunds_create Demo.world;
     paymentIntents_retrieve := paymentIntents_retrieve Demo.world;
     paymentIntents_capture := paymentIntents_capture Demo.world;
     charges_list := charges_list Demo.world;
     findCustomerByIdentifier := findCustomerByIdentifier Demo.world;
     findPaymentByIdentifier := findPaymentByIdentifier Demo.world |}.

End Demo2.

(* ===================================================================== *)
(** * Numbers                                                             *)
(* ===================================================================== *)

(** The conversion on some literals: the nearest binary64, ties to even,
    overflow to infinity, the smallest subnormal, and what is no number. *)
Example string_to_number_samples :
  Js.string_to_number "150.7" = S754_finite false 5302284873786982 (-45)
  /\ Js.string_to_number "0.1" = S754_finite false 7205759403792794 (-56)
  /\ Js.string_to_number " 42 " = Js.of_Z 42
  /\ Js.string_to_number "1e3" = Js.of_Z 1000
  /\ Js.string_to_number "0x1F" = Js.of_Z 31
  /\ Js.string_to_number "9007199254740993" = Js.of_Z 9007199254740992
  /\ Js.string_to_number "1e400" = S754_infinity false
  /\ Js.string_to_number "5e-324" = S754_finite false 1 (-1074)
  /\ Js.string_to_number "-.5" = S754_finite true 4503599627370496 (-53)
  /\ Js.string_to_number "" = S754_zero false
  /\ Js.string_to_number "12px" = Js.NaN
  /\ Js.string_to_number "1,5" = Js.NaN
  /\ Js.string_to_number "abc" = Js.NaN.
Proof. repeat apply conj; vm_compute; reflexivity. Qed.

Example Math_round_samples :
  Js.Math_round (Js.string_to_number "150.7") = Js.of_Z 151
  /\ Js.Math_round (Js.string_to_number "150.5") = Js.of_Z 151
  /\ Js.Math_round (Js.string_to_number "150.4") = Js.of_Z 150
  /\ Js.Math_round (Js.string_to_number "-2.5") = Js.of_Z (-2)
  /\ Js.Math_round (Js.string_to_number "-0.2") = S754_zero true
  /\ Js.Math_round (Js.string_to_number "0.49999999999999994") = S754_zero false
  /\ Js.Math_round (Js.of_Z 151) = Js.of_Z 151.
Proof. repeat apply conj; vm_compute; reflexivity. Qed.


(* ===================================================================== *)
(** * Properties of [handleRefundRequest]                                 *)
(* ===================================================================== *)

Lemma get_object fields k :
  get (Js.Obj fields) k = inr (field (Js.Obj fields) k).
Proof. reflexivity. Qed.

(** A template literal whose substitutions can be printed is the string it
    denotes. *)
Lemma template_literal_printable (t : template) :
  existsb (fun p => match p with
                    | Subst v => Js.unprintable v
                    | Lit _ => false
                    end) t = false ->
  template_literal t = inr t.
Proof. unfold template_literal. intros ->. reflexivity. Qed.

Lemma template_literal_subst (a : string) (v : Js.value) :
  Js.unprintable v = false ->
  template_literal [Lit a; Subst v] = inr [Lit a; Subst v].
Proof. intros H. apply template_literal_printable. cbn. rewrite H. reflexivity. Qed.

Lemma template_literal_unprintable (a : string) (v : Js.value) :
  Js.unprintable v = true ->
  template_literal [Lit a; Subst v]
  = inl (TypeError "Cannot convert object to primitive value").
Proof. intros H. unfold template_literal. cbn. rewrite H. reflexivity. Qed.

Ltac simpl_handler :=
  cbn -[field Js.truthy Js.or_else captureParams_of template_literal].

Ltac step_handler :=
  unfold run, handleRefundRequest, handleCaptureRequest, refund_issued,
    capture_issued, refund_args, refund_catch, capture_catch, invalid_input,
    invalid_state, customer_not_found, no_charges, intent_required;
  rewrite ?get_object;
  unfold try_catch, bind, lift, await, ret, log;
  simpl_handler.

Ltac use_hyps :=
  repeat (match goal with
          | H : Js.truthy _ = _ |- _ => rewrite H
          | H : _ = inr _ |- _ => rewrite H
          | H : _ = None |- _ => rewrite H
          | H : _ = [] |- _ => rewrite H
          | H : _ = _ :: _ |- _ => rewrite H
          end; simpl_handler).

Section RefundProperties.

Variable w : World.
Variable fields : list (string * Js.value).

Let parameters := Js.Obj fields.

(** C1, as amended: when [charge_id] is truthy (a non-empty string, say), the
    refund of exactly that charge is the only call the handler makes,
    whatever [payment_intent_id], [orderIdentifier] and [customerIdentifier]
    hold. *)
Theorem refund_by_charge_id :
  Js.truthy (field parameters "charge_id") = true ->
  run (handleRefundRequest w parameters)
  = refund_issued w [] (refund_args parameters (field parameters "charge_id")) None
  /\ refunds_exactly w parameters (field parameters "charge_id").
Proof.
  intros Hc. subst parameters.
  assert (E : run (handleRefundRequest w (Js.Obj fields))
              = refund_issued w []
                  (refund_args (Js.Obj fields) (field (Js.Obj fields) "charge_id")) None).
  { step_handler. use_hyps. destruct (refunds_create w _); reflexivity. }
  split; [exact E|].
  exists (refund_args (Js.Obj fields) (field (Js.Obj fields) "charge_id")).
  split; [reflexivity|].
  rewrite E. unfold refund_issued.
  destruct (refunds_create w _); reflexivity.
Qed.

(** C2: with no usable [charge_id] and a [payment_intent_id] whose payment
    intent comes back without [latest_charge], the answer is the 400 of an
    invalid state, and the retrieval is the only call made: no refund is
    created. *)
Theorem refund_intent_without_charge (paymentIntent : PaymentIntent.t) :
  Js.truthy (field parameters "charge_id") = false ->
  Js.truthy (field parameters "payment_intent_id") = true ->
  paymentIntents_retrieve w (field parameters "payment_intent_id") = inr paymentIntent ->
  PaymentIntent.latest_charge paymentIntent = None ->
  run (handleRefundRequest w parameters)
  = ([PaymentIntentsRetrieve (field parameters "payment_intent_id")], inr invalid_state)
  /\ res_status invalid_state = 400
  /\ existsb is_refund (fst (run (handleRefundRequest w parameters))) = false.
Proof.
  intros Hc Hp Hr Hl. subst parameters.
  assert (E : run (handleRefundRequest w (Js.Obj fields))
              = ([PaymentIntentsRetrieve (field (Js.Obj fields) "payment_intent_id")],
                 inr invalid_state)).
  { step_handler. use_hyps. reflexivity. }
  rewrite E. repeat split.
Qed.

(** C3: with [customerIdentifier] as the only identifier in use, the customer
    is looked up; no customer gives 404 (the answer names the identifier, so
    this is for an identifier that can be printed, as every string can), a
    customer whose charge list (asked for with limit 10) is empty gives 404,
    and otherwise the first charge of the list is the one refunded. *)
Theorem refund_by_customer :
  Js.truthy (field parameters "charge_id") = false ->
  Js.truthy (field parameters "payment_intent_id") = false ->
  Js.truthy (field parameters "orderIdentifier") = false ->
  Js.truthy (field parameters "customerIdentifier") = true ->
  let customerIdentifier := field parameters "customerIdentifier" in
  (findCustomerByIdentifier w customerIdentifier = inr None ->
   Js.unprintable customerIdentifier = false ->
   run (handleRefundRequest w parameters)
   = ([FindCustomerByIdentifier customerIdentifier],
      inr (customer_not_found customerIdentifier))
   /\ res_status (customer_not_found customerIdentifier) = 404)
  /\
  (forall customer charges,
     findCustomerByIdentifier w customerIdentifier = inr (Some customer) ->
     charges_list w (Customer.id customer) 10 = inr charges ->
     ApiList.data charges = [] ->
     run (handleRefundRequest w parameters)
     = ([FindCustomerByIdentifier customerIdentifier;
         ChargesList (Customer.id customer) 10],
        inr no_charges)
     /\ res_status no_charges = 404)
  /\
  (forall customer charges first rest,
     findCustomerByIdentifier w customerIdentifier = inr (Some customer) ->
     charges_list w (Customer.id customer) 10 = inr charges ->
     ApiList.data charges = first :: rest ->
     run (handleRefundRequest w parameters)
     = refund_issued w
         [FindCustomerByIdentifier customerIdentifier;
          ChargesList (Customer.id customer) 10]
         (refund_args parameters (Js.Str (Charge.id first)))
         (Some [Lit "Refund processed for customer ";
                Subst (Js.Str (Customer.id customer));
                Lit " on charge ";
                Subst (Js.Str (Charge.id first))])).
Proof.
  intros Hc Hp Ho Hk. subst parameters. cbv zeta.
  split; [|split].
  - intros Hf Hu. split; [|reflexivity]. step_handler. use_hyps.
    rewrite (template_literal_subst _ _ Hu). reflexivity.
  - intros customer charges Hf Hl Hd. split; [|reflexivity].
    step_handler. use_hyps. reflexivity.
  - intros customer charges first rest Hf Hl Hd.
    step_handler. use_hyps.
    destruct (refunds_create w _); reflexivity.
Qed.

(** What the first part leaves out: an identifier that cannot be printed
    makes line 172 throw after the lookup, and the answer is the 500 of the
    catch. *)
Lemma refund_by_unprintable_customer :
  Js.truthy (field parameters "charge_id") = false ->
  Js.truthy (field parameters "payment_intent_id") = false ->
  Js.truthy (field parameters "orderIdentifier") = false ->
  Js.truthy (field parameters "customerIdentifier") = true ->
  findCustomerByIdentifier w (field parameters "customerIdentifier") = inr None ->
  Js.unprintable (field parameters "customerIdentifier") = true ->
  let e := TypeError "Cannot convert object to primitive value" in
  run (handleRefundRequest w parameters)
  = ([FindCustomerByIdentifier (field parameters "customerIdentifier");
      ConsoleError "Error handling refund request:" e],
     inr (refund_catch e)).
Proof.
  intros Hc Hp Ho Hk Hf Hu. subst parameters. cbv zeta.
  step_handler. use_hyps.
  rewrite (template_literal_unprintable _ _ Hu). reflexivity.
Qed.

(** C4: when none of the four identifier fields holds a usable value (in
    particular when none of them is there), the answer is the 400 that lists
    the four accepted fields, and nothing at all is called. *)
Theorem refund_without_identifier :
  Js.truthy (field parameters "charge_id") = false ->
  Js.truthy (field parameters "payment_intent_id") = false ->
  Js.truthy (field parameters "customerIdentifier") = false ->
  Js.truthy (field parameters "orderIdentifier") = false ->
  run (handleRefundRequest w parameters) = ([], inr invalid_input)
  /\ res_status invalid_input = 400
  /\ forallb (fun k => Js.includes k refund_input_error)
       ["charge_id"; "payment_intent_id"; "customerIdentifier"; "orderIdentifier"]
     = true.
Proof.
  intros Hc Hp Hk Ho. subst parameters.
  split; [|split; reflexivity].
  step_handler. use_hyps. reflexivity.
Qed.

(** C10: with [orderIdentifier] as the only identifier in use and a payment
    lookup that finds nothing, the handler falls through to the 400 "Please
    provide either ..." of a missing input, not to a 404. *)
Theorem refund_order_not_found :
  Js.truthy (field parameters "charge_id") = false ->
  Js.truthy (field parameters "payment_intent_id") = false ->
  Js.truthy (field parameters "customerIdentifier") = false ->
  Js.truthy (field parameters "orderIdentifier") = true ->
  findPaymentByIdentifier w (field parameters "orderIdentifier") = inr None ->
  run (handleRefundRequest w parameters)
  = ([FindPaymentByIdentifier (field parameters "orderIdentifier")], inr invalid_input)
  /\ res_status invalid_input = 400
  /\ res_body invalid_input
     = Error (Val (Js.Str "Please provide either charge_id, payment_intent_id, customerIdentifier, or orderIdentifier")).
Proof.
  intros Hc Hp Hk Ho Hf. subst parameters.
  split; [|split; reflexivity].
  step_handler. use_hyps. reflexivity.
Qed.

(** The order path: the payment found for [orderIdentifier] names its
    charge, and that charge is refunded without a customer lookup. *)
Lemma refund_by_order (paymentInfo : PaymentInfo.t) (c : Charge.t) :
  Js.truthy (field parameters "charge_id") = false ->
  Js.truthy (field parameters "payment_intent_id") = false ->
  Js.truthy (field parameters "orderIdentifier") = true ->
  Js.unprintable (field parameters "orderIdentifier") = false ->
  findPaymentByIdentifier w (field parameters "orderIdentifier") = inr (Some paymentInfo) ->
  PaymentInfo.charge paymentInfo = Some c ->
  string_truthy (Charge.id c) = true ->
  run (handleRefundRequest w parameters)
  = refund_issued w
      [FindPaymentByIdentifier (field parameters "orderIdentifier")]
      (refund_args parameters (Js.Str (Charge.id c)))
      (Some [Lit "Refund processed for order ";
             Subst (field parameters "orderIdentifier")]).
Proof.
  intros Hc Hp Ho Hu Hf Hch Hid. subst parameters.
  step_handler. use_hyps. rewrite orb_true_r. simpl_handler. use_hyps.
  rewrite Hch. unfold opt_or. cbn [option_map opt_truthy]. rewrite Hid.
  cbn [negb]. rewrite ?Hid. cbn [negb].
  replace (Js.or_else (field (Js.Obj fields) "orderIdentifier") (Js.Str "N/A"))
    with (field (Js.Obj fields) "orderIdentifier")
    by (unfold Js.or_else; rewrite Ho; reflexivity).
  rewrite (template_literal_subst _ _ Hu).
  destruct (refunds_create w _); reflexivity.
Qed.

End RefundProperties.

(** Parameters that are missing altogether make the first read throw; the
    handlers answer 500 and call nothing. *)
Lemma handlers_without_parameters w :
  capability_calls (fst (run (handleRefundRequest w Js.Undefined))) = []
  /\ option_map res_status
       (match snd (run (handleRefundRequest w Js.Undefined)) with
        | inr r => Some r
        | inl _ => None
        end) = Some 500
  /\ capability_calls (fst (run (handleCaptureRequest w Js.Undefined))) = []
  /\ option_map res_status
       (match snd (run (handleCaptureRequest w Js.Undefined)) with
        | inr r => Some r
        | inl _ => None
        end) = Some 500.
Proof. repeat split. Qed.

(* ===================================================================== *)
(** * Properties of [handleCaptureRequest]                                *)
(* ===================================================================== *)

Section CaptureProperties.

Variable w : World.
Variable fields : list (string * Js.value).

Let parameters := Js.Obj fields.

(** The handler in one equation: the first truthy alias is captured with the
    parameters made from [amount], if they can be made; without one, nothing
    is called. *)
Lemma capture_request :
  run (handleCaptureRequest w parameters)
  = match supplied_intent parameters with
    | Some paymentIntentId =>
        capture_attempted w paymentIntentId
          (captureParams_of (field parameters "amount"))
    | None => ([], inr intent_required)
    end.
Proof.
  subst parameters. unfold supplied_intent, intent_aliases, capture_attempted.
  step_handler. unfold Js.or_else. cbn [map find].
  destruct (Js.truthy (field (Js.Obj fields) "payment_intent_id")) eqn:H1;
    [|destruct (Js.truthy (field (Js.Obj fields) "paymentIntentId")) eqn:H2;
      [|destruct (Js.truthy (field (Js.Obj fields) "intent_id")) eqn:H3;
        [|destruct (Js.truthy (field (Js.Obj fields) "id")) eqn:H4]]];
    simpl_handler; use_hyps;
    try reflexivity;
    (destruct (captureParams_of _) as [e|captureParams]; [reflexivity|]);
    simpl_handler;
    destruct (paymentIntents_capture w _ _); reflexivity.
Qed.

(** C8: the payment-intent id is read under [payment_intent_id],
    [paymentIntentId], [intent_id] and [id], the first of them that is
    non-empty (truthy) being the one captured, with the parameters made from
    [amount]; an [amount] that [Number] cannot convert makes line 276 throw,
    and then the answer is the 500 of the catch and no capture is requested.
    When none of the four fields is truthy, the answer is the 400 of a
    missing input and no capture is requested, whatever else the parameters
    hold. *)
Theorem capture_intent_aliases :
  match find Js.truthy
          (map (field parameters)
             ["payment_intent_id"; "paymentIntentId"; "intent_id"; "id"]) with
  | Some paymentIntentId =>
      match captureParams_of (field parameters "amount") with
      | inr captureParams =>
          run (handleCaptureRequest w parameters)
          = capture_issued w paymentIntentId captureParams
      | inl e =>
          run (handleCaptureRequest w parameters)
          = ([ConsoleError "Error capturing payment intent:" e],
             inr (capture_catch e))
          /\ res_status (capture_catch e) = 500
      end
  | None =>
      run (handleCaptureRequest w parameters) = ([], inr intent_required)
      /\ res_status intent_required = 400
  end.
Proof.
  pose proof capture_request as E.
  unfold supplied_intent, intent_aliases, capture_attempted in E.
  destruct (find Js.truthy _).
  - destruct (captureParams_of _); [split; [exact E | reflexivity] | exact E].
  - split; [exact E | reflexivity].
Qed.

End CaptureProperties.

Lemma captureParams_of_150_7 :
  captureParams_of (Js.Str "150.7") = inr {| amount_to_capture := Some (Js.of_Z 151) |}.
Proof. vm_compute. reflexivity. Qed.

Lemma captureParams_of_not_a_number s :
  Js.string_to_number s = Js.NaN ->
  captureParams_of (Js.Str s) = inr {| amount_to_capture := None |}.
Proof.
  intros H. unfold captureParams_of, Js.to_number.
  destruct (Js.truthy (Js.Str s)); [|reflexivity].
  cbn [Js.unprintable Js.number_of]. rewrite H. reflexivity.
Qed.

(* ===================================================================== *)
(** * Properties of the dispatcher                                        *)
(* ===================================================================== *)

(** Case analysis on every condition a handler branches on, innermost
    first. *)
Ltac split_cases :=
  repeat (match goal with
          | |- context [match ?x with _ => _ end] =>
              lazymatch x with
              | context [match _ with _ => _ end] => fail
              | _ => destruct x eqn:?
              end
          end; cbn beta iota).

(** The handlers answer every request: what they throw they catch. *)
Lemma handleRefundRequest_responds w parameters tr :
  exists tr' r,
    handleRefundRequest w parameters tr = (tr', inr r)
    /\ res_headers r = corsHeaders.
Proof.
  unfold handleRefundRequest, try_catch, bind, lift, await, ret, log, get.
  split_cases; eexists; eexists; split; reflexivity.
Qed.

Lemma handleCaptureRequest_responds w parameters tr :
  exists tr' r,
    handleCaptureRequest w parameters tr = (tr', inr r)
    /\ res_headers r = corsHeaders.
Proof.
  unfold handleCaptureRequest, try_catch, bind, lift, await, ret, log, get.
  split_cases; eexists; eexists; split; reflexivity.
Qed.

Lemma find_not_in_catalog w toolName :
  in_catalog w toolName = false ->
  find (fun t => name_is t (Js.Str toolName)) (getTools w) = None.
Proof.
  unfold in_catalog. induction (getTools w) as [|t tools IH]; cbn; [reflexivity|].
  intros H. apply orb_false_elim in H. destruct H as [Ht Htools].
  rewrite Ht. auto.
Qed.

Lemma refund_alias_includes toolName :
  is_refund_alias (Js.Str toolName) = true -> Js.includes "refund" toolName = true.
Proof.
  unfold is_refund_alias, is_string. intros H.
  repeat (apply orb_true_elim in H; destruct H as [H|H]);
    apply String.eqb_eq in H; subst; reflexivity.
Qed.

Lemma includes_truthy sub c toolName :
  Js.includes (String c sub) toolName = true -> Js.truthy (Js.Str toolName) = true.
Proof. destruct toolName; [discriminate | reflexivity]. Qed.

(** The request reaches the handler the dispatcher names. *)
Section Routing.

Variable w : World.
Variable request : Request.
Variable body : Js.value.

Hypothesis configured : opt_truthy (STRIPE_SECRET_KEY w) = true.
Hypothesis parsed : json request = inr body.
Hypothesis has_body : Js.nullish body = false.
Hypothesis named : Js.truthy (field body "toolName") = true.

Ltac enter_POST :=
  unfold run, POST, try_catch, bind, lift, ret, get;
  rewrite configured, parsed, has_body; cbn [negb]; rewrite named; cbn [negb].

Lemma POST_to_capture :
  dispatch w (field body "toolName") = inr CaptureResolver ->
  run (POST w request) = run (handleCaptureRequest w (field body "parameters")).
Proof.
  intros Hd. enter_POST. rewrite Hd.
  destruct (handleCaptureRequest_responds w (field body "parameters") [])
    as (tr' & r & E & _).
  unfold run. rewrite E. reflexivity.
Qed.

Lemma POST_to_refund :
  dispatch w (field body "toolName") = inr RefundResolver ->
  run (POST w request) = run (handleRefundRequest w (field body "parameters")).
Proof.
  intros Hd. enter_POST. rewrite Hd.
  destruct (handleRefundRequest_responds w (field body "parameters") [])
    as (tr' & r & E & _).
  unfold run. rewrite E. reflexivity.
Qed.

Lemma POST_not_found :
  dispatch w (field body "toolName") = inr NotFound ->
  Js.unprintable (field body "toolName") = false ->
  run (POST w request) = ([], inr (tool_not_found (field body "toolName"))).
Proof.
  intros Hd Hu. enter_POST. rewrite Hd.
  rewrite template_literal_printable by (cbn; rewrite Hu; reflexivity).
  reflexivity.
Qed.

End Routing.

(** C5, as amended: a tool name that contains "capture", does not contain
    "refund" and is not the name of a tool of the SDK catalog is sent to the
    capture handler, and the request is answered by that handler. *)
Theorem capture_fallback (w : World) (toolName : string) :
  Js.includes "capture" toolName = true ->
  Js.includes "refund" toolName = false ->
  in_catalog w toolName = false ->
  dispatch w (Js.Str toolName) = inr CaptureResolver
  /\ forall request parameters,
       opt_truthy (STRIPE_SECRET_KEY w) = true ->
       json request = inr (call_body toolName parameters) ->
       run (POST w request) = run (handleCaptureRequest w parameters).
Proof.
  intros Hcap Href Hcat.
  assert (Hd : dispatch w (Js.Str toolName) = inr CaptureResolver).
  { unfold dispatch.
    destruct (is_refund_alias (Js.Str toolName)) eqn:Ha.
    { apply refund_alias_includes in Ha. congruence. }
    destruct (is_capture_alias (Js.Str toolName)); [reflexivity|].
    cbn [includes_method].
    destruct (Js.includes "capture_payment_intent" toolName); [reflexivity|].
    rewrite (find_not_in_catalog _ _ Hcat), Href, Hcap. reflexivity. }
  split; [exact Hd|].
  intros request parameters Hs Hj.
  apply (POST_to_capture w request (call_body toolName parameters) Hs Hj).
  - reflexivity.
  - exact (includes_truthy _ _ _ Hcap).
  - exact Hd.
Qed.

(** C6, where the code falls short of it: the answer to a tool name that
    nothing handles is a 404 that carries no headers at all. *)
Theorem not_found_without_cors (w : World) (request : Request)
    (toolName : string) (parameters : Js.value) :
  opt_truthy (STRIPE_SECRET_KEY w) = true ->
  json request = inr (call_body toolName parameters) ->
  toolName <> "" ->
  dispatch w (Js.Str toolName) = inr NotFound ->
  exists r,
    run (POST w request) = ([], inr r)
    /\ res_status r = 404
    /\ res_body r = Error (Text [Lit "Tool "; Subst (Js.Str toolName); Lit " not found"])
    /\ res_headers r = []
    /\ res_headers r <> corsHeaders.
Proof.
  intros Hs Hj Hn Hd.
  exists (tool_not_found (Js.Str toolName)).
  split.
  - apply (POST_not_found w request (call_body toolName parameters) Hs Hj).
    + reflexivity.
    + destruct toolName; [contradiction | reflexivity].
    + exact Hd.
    + reflexivity.
  - repeat split. discriminate.
Qed.

(** Every other answer of [POST] carries the CORS headers, and [POST] always
    answers. *)
Lemma POST_responds w request tr :
  exists tr' r,
    POST w request tr = (tr', inr r)
    /\ (res_headers r = corsHeaders
        \/ exists toolName, r = tool_not_found toolName).
Proof.
  unfold POST, try_catch.
  destruct (opt_truthy (STRIPE_SECRET_KEY w)); cbn [negb];
    [|eexists; eexists; split; [reflexivity | left; reflexivity]].
  unfold bind at 1. unfold lift at 1.
  destruct (json request) as [e|body];
    [eexists; eexists; split; [reflexivity | left; reflexivity]|].
  unfold bind at 1. unfold lift at 1.
  destruct (get body "toolName") as [e|toolName];
    [eexists; eexists; split; [reflexivity | left; reflexivity]|].
  unfold bind at 1. unfold lift at 1.
  destruct (get body "parameters") as [e|parameters];
    [eexists; eexists; split; [reflexivity | left; reflexivity]|].
  destruct (Js.truthy toolName); cbn [negb];
    [|eexists; eexists; split; [reflexivity | left; reflexivity]].
  unfold bind at 1. unfold lift at 1.
  destruct (dispatch w toolName) as [e|[| |tool|]];
    [eexists; eexists; split; [reflexivity | left; reflexivity]| | | |].
  - destruct (handleRefundRequest_responds w parameters tr) as (tr' & r & E & H).
    rewrite E. eauto.
  - destruct (handleCaptureRequest_responds w parameters tr) as (tr' & r & E & H).
    rewrite E. eauto.
  - unfold bind, await, lift, ret.
    destruct (handleToolCall w _) as [e|result];
      [eexists; eexists; split; [reflexivity | left; reflexivity]|].
    destruct (get result "content");
      eexists; eexists; split; reflexivity || (left; reflexivity).
  - unfold bind, lift, ret, log, template_literal.
    destruct (existsb _ _);
      [eexists; eexists; split; [reflexivity | left; reflexivity]
      |eexists; eexists; split; [reflexivity | right; eexists; reflexivity]].
Qed.

(** C7: sent as [paymentIntents_capture], the amount ["150.7"] makes the
    handler ask for a capture of 151 on the payment intent given, and an
    amount string that [Number] turns into NaN is left out: the capture is
    asked for without an amount, and no error comes of it. *)
Theorem capture_amount_rounded (w : World) (request : Request)
    (fields : list (string * Js.value)) (paymentIntentId : Js.value) :
  opt_truthy (STRIPE_SECRET_KEY w) = true ->
  json request = inr (call_body "paymentIntents_capture" (Js.Obj fields)) ->
  supplied_intent (Js.Obj fields) = Some paymentIntentId ->
  (field (Js.Obj fields) "amount" = Js.Str "150.7" ->
   run (POST w request)
   = capture_issued w paymentIntentId {| amount_to_capture := Some (Js.of_Z 151) |})
  /\
  (forall s,
     field (Js.Obj fields) "amount" = Js.Str s ->
     Js.string_to_number s = Js.NaN ->
     run (POST w request)
     = capture_issued w paymentIntentId {| amount_to_capture := None |}).
Proof.
  intros Hs Hj Hi.
  assert (E : run (POST w request)
              = capture_attempted w paymentIntentId
                  (captureParams_of (field (Js.Obj fields) "amount"))).
  { rewrite (POST_to_capture w request _ Hs Hj); try reflexivity.
    cbn [call_body field Js.lookup String.eqb Ascii.eqb Bool.eqb].
    rewrite capture_request, Hi. reflexivity. }
  split.
  - intros Ha. rewrite E, Ha, captureParams_of_150_7. reflexivity.
  - intros s Ha Hn. rewrite E, Ha, (captureParams_of_not_a_number s Hn). reflexivity.
Qed.

(* ===================================================================== *)
(** * Properties of the status badges                                     *)
(* ===================================================================== *)

(** A status that is a key of the literal gets that key's classes. *)
Lemma badge_known statusColors status classes :
  Badge.own_property status statusColors = Some classes ->
  string_truthy classes = true ->
  Badge.className_colour (Badge.badge statusColors status) = Some (Badge.Own classes).
Proof.
  intros Ho Ht. unfold Badge.badge, Badge.get_property. cbn.
  rewrite Ho. cbn. rewrite Ht. reflexivity.
Qed.

(** A status that is neither a key of the literal nor the name of a member
    of [Object.prototype] gets the classes of [pending]. *)
Lemma badge_defaults_to_pending statusColors status :
  Badge.own_property status statusColors = None ->
  existsb (String.eqb status) Badge.Object_prototype = false ->
  Badge.own_property "pending" statusColors = Some Badge.yellow ->
  Badge.className_colour (Badge.badge statusColors status)
  = Some (Badge.Own Badge.yellow).
Proof.
  intros Ho Hp Hy. unfold Badge.badge, Badge.get_property. cbn -[Badge.Object_prototype].
  rewrite Ho, Hp. cbn. rewrite Hy. reflexivity.
Qed.

(** C9, where the code falls short of it: [constructor] is no status of
    either page, yet its badge is not styled as [pending]: the lookup finds
    the member the colour table inherits. Nothing is thrown. *)
Theorem badge_of_inherited_key :
  Badge.own_property "constructor" ListPage.statusColors = None
  /\ Badge.own_property "constructor" DetailPage.statusColors = None
  /\ Badge.className_colour (ListPage.getStatusBadge "constructor")
     = Some (Badge.Inherited "constructor")
  /\ Badge.className_colour (DetailPage.getStatusBadge "constructor")
     = Some (Badge.Inherited "constructor")
  /\ Badge.className_colour (ListPage.getStatusBadge "constructor")
     <> Some (Badge.Own Badge.yellow)
  /\ Badge.className_colour (DetailPage.getStatusBadge "constructor")
     <> Some (Badge.Own Badge.yellow).
Proof. repeat split; discriminate. Qed.

(* ===================================================================== *)
(** * The properties at work                                              *)
(* ===================================================================== *)

Lemma refund_by_charge_id_witness :
  Js.truthy (field (Js.Obj Demo.by_charge) "charge_id") = true
  /\ run (handleRefundRequest Demo.world (Js.Obj Demo.by_charge))
     = refund_issued Demo.world []
         (refund_args (Js.Obj Demo.by_charge) (Js.Str "ch_1")) None
  /\ refunds_exactly Demo.world (Js.Obj Demo.by_charge) (Js.Str "ch_1").
Proof.
  split; [reflexivity|].
  apply (refund_by_charge_id Demo.world Demo.by_charge). reflexivity.
Defined.

(** C1 as it is stated fails: a parameter set that has [charge_id], holding
    the empty string, and a [payment_intent_id]; the payment intent is
    retrieved and its charge is the one refunded. *)
Lemma refund_by_charge_id_counterexample :
  Js.lookup "charge_id" Demo.empty_charge_id = Some (Js.Str "")
  /\ fst (run (handleRefundRequest Demo.world (Js.Obj Demo.empty_charge_id)))
     = [PaymentIntentsRetrieve (Js.Str "pi_paid");
        RefundsCreate
          {| charge := Js.Str "ch_paid";
             amount := Js.Undefined;
             reason := Js.Str "requested_by_customer";
             metadata := Js.Obj [] |}]
  /\ ~ refunds_exactly Demo.world (Js.Obj Demo.empty_charge_id) (Js.Str "").
Proof.
  split; [reflexivity|]. split; [reflexivity|].
  intros (args & _ & Ht). vm_compute in Ht. discriminate Ht.
Qed.

Lemma refund_intent_without_charge_witness :
  run (handleRefundRequest Demo.world (Js.Obj Demo.by_new_intent))
  = ([PaymentIntentsRetrieve (Js.Str "pi_new")], inr invalid_state)
  /\ res_status invalid_state = 400
  /\ existsb is_refund
       (fst (run (handleRefundRequest Demo.world (Js.Obj Demo.by_new_intent))))
     = false.
Proof.
  apply (refund_intent_without_charge Demo.world Demo.by_new_intent
           {| PaymentIntent.latest_charge := None |});
    reflexivity.
Defined.

Lemma refund_by_customer_witness :
  (run (handleRefundRequest Demo.world (Js.Obj (Demo.by_customer "eve@example.com")))
   = ([FindCustomerByIdentifier (Js.Str "eve@example.com")],
      inr (customer_not_found (Js.Str "eve@example.com"))))
  /\
  (run (handleRefundRequest Demo.world (Js.Obj (Demo.by_customer "bob@example.com")))
   = ([FindCustomerByIdentifier (Js.Str "bob@example.com"); ChargesList "cus_bob" 10],
      inr no_charges))
  /\
  (run (handleRefundRequest Demo.world (Js.Obj (Demo.by_customer "ann@example.com")))
   = refund_issued Demo.world
       [FindCustomerByIdentifier (Js.Str "ann@example.com"); ChargesList "cus_ann" 10]
       (refund_args (Js.Obj (Demo.by_customer "ann@example.com")) (Js.Str "ch_a2"))
       (Some [Lit "Refund processed for customer "; Subst (Js.Str "cus_ann");
              Lit " on charge "; Subst (Js.Str "ch_a2")])).
Proof.
  split; [|split].
  - destruct (refund_by_customer Demo.world (Demo.by_customer "eve@example.com")
                eq_refl eq_refl eq_refl eq_refl) as (H & _ & _).
    apply H; reflexivity.
  - destruct (refund_by_customer Demo.world (Demo.by_customer "bob@example.com")
                eq_refl eq_refl eq_refl eq_refl) as (_ & H & _).
    apply (H {| Customer.id := "cus_bob" |} {| ApiList.data := [] |}); reflexivity.
  - destruct (refund_by_customer Demo.world (Demo.by_customer "ann@example.com")
                eq_refl eq_refl eq_refl eq_refl) as (_ & _ & H).
    apply (H {| Customer.id := "cus_ann" |}
             {| ApiList.data := [ {| Charge.id := "ch_a2" |}; {| Charge.id := "ch_a1" |} ] |}
             {| Charge.id := "ch_a2" |} [ {| Charge.id := "ch_a1" |} ]);
      reflexivity.
Defined.

Lemma refund_without_identifier_witness :
  run (handleRefundRequest Demo.world (Js.Obj Demo.no_identifier))
  = ([], inr invalid_input).
Proof.
  apply (refund_without_identifier Demo.world Demo.no_identifier); reflexivity.
Defined.

Lemma refund_order_not_found_witness :
  run (handleRefundRequest Demo.world (Js.Obj Demo.by_order))
  = ([FindPaymentByIdentifier (Js.Str "order_9")], inr invalid_input).
Proof.
  apply (refund_order_not_found Demo.world Demo.by_order); reflexivity.
Defined.

Lemma capture_fallback_witness :
  dispatch Demo.world (Js.Str "do_capture") = inr CaptureResolver
  /\ run (POST Demo.world (Demo.request "do_capture" (Demo.capture_of "150.7")))
     = run (handleCaptureRequest Demo.world (Js.Obj (Demo.capture_of "150.7"))).
Proof.
  destruct (capture_fallback Demo.world "do_capture" eq_refl eq_refl eq_refl)
    as (Hd & Hp).
  split; [exact Hd|].
  apply Hp; reflexivity.
Defined.

(** C5 as it is stated fails. [capture_refund] contains "capture" and is no
    alias, and it is the refund handler that answers it. *)
Lemma capture_fallback_counterexample :
  Js.includes "capture" "capture_refund" = true
  /\ is_capture_alias (Js.Str "capture_refund") = false
  /\ dispatch Demo.world (Js.Str "capture_refund") = inr RefundResolver
  /\ run (POST Demo.world
            (Demo.request "capture_refund" (Demo.capture_of "150.7")))
     = ([], inr invalid_input).
Proof. repeat apply conj; vm_compute; reflexivity. Qed.

Lemma not_found_without_cors_witness :
  exists r,
    run (POST Demo.world (Demo.request "send_invoice" [])) = ([], inr r)
    /\ res_status r = 404
    /\ res_body r
       = Error (Text [Lit "Tool "; Subst (Js.Str "send_invoice"); Lit " not found"])
    /\ res_headers r = []
    /\ res_headers r <> corsHeaders.
Proof.
  apply (not_found_without_cors Demo.world (Demo.request "send_invoice" [])
           "send_invoice" (Js.Obj [])).
  - reflexivity.
  - reflexivity.
  - discriminate.
  - reflexivity.
Defined.

Lemma capture_amount_rounded_witness :
  run (POST Demo.world (Demo.request "paymentIntents_capture" (Demo.capture_of "150.7")))
  = capture_issued Demo.world (Js.Str "pi_auth")
      {| amount_to_capture := Some (Js.of_Z 151) |}
  /\
  run (POST Demo.world (Demo.request "paymentIntents_capture" (Demo.capture_of "a lot")))
  = capture_issued Demo.world (Js.Str "pi_auth") {| amount_to_capture := None |}.
Proof.
  split.
  - destruct (capture_amount_rounded Demo.world
                (Demo.request "paymentIntents_capture" (Demo.capture_of "150.7"))
                (Demo.capture_of "150.7") (Js.Str "pi_auth")
                eq_refl eq_refl eq_refl) as (H & _).
    apply H. reflexivity.
  - destruct (capture_amount_rounded Demo.world
                (Demo.request "paymentIntents_capture" (Demo.capture_of "a lot"))
                (Demo.capture_of "a lot") (Js.Str "pi_auth")
                eq_refl eq_refl eq_refl) as (_ & H).
    apply (H "a lot"); reflexivity.
Defined.

Lemma capture_intent_aliases_witness :
  run (handleCaptureRequest Demo.world (Js.Obj Demo2.capture_by_alias))
  = ([PaymentIntentsCapture (Js.Str "pi_b")
        {| amount_to_capture := Some (Js.of_Z 20) |}],
     inr (NextResponse_json (Result (Js.Obj [("id", Js.Str "pi_b")]) None)
            200 corsHeaders))
  /\
  (let e := TypeError "Cannot convert object to primitive value" in
   run (handleCaptureRequest Demo.world (Js.Obj Demo2.capture_unprintable_amount))
   = ([ConsoleError "Error capturing payment intent:" e], inr (capture_catch e)))
  /\
  run (handleCaptureRequest Demo.world (Js.Obj Demo.no_identifier))
  = ([], inr intent_required).
Proof.
  split; [|split].
  - exact (capture_intent_aliases Demo.world Demo2.capture_by_alias).
  - exact (proj1 (capture_intent_aliases Demo.world Demo2.capture_unprintable_amount)).
  - exact (proj1 (capture_intent_aliases Demo.world Demo.no_identifier)).
Defined.

(* ===================================================================== *)
(** * Substrings                                                          *)
(* ===================================================================== *)

Lemma append_assoc_string (a b c : string) :
  ((a ++ b) ++ c)%string = (a ++ (b ++ c))%string.
Proof. induction a as [|x a IH]; cbn; [reflexivity | now rewrite IH]. Qed.

Lemma prefix_append sub s :
  prefix sub s = true <-> exists post, s = (sub ++ post)%string.
Proof.
  revert s. induction sub as [|a sub IH]; intros s; cbn.
  - split; [intros _; exists s; reflexivity | destruct s; reflexivity].
  - destruct s as [|b s].
    + split; [discriminate | intros (post & H); discriminate H].
    + cbn [prefix]. destruct (ascii_dec a b) as [->|Hne].
      * rewrite IH. split; intros (post & H); exists post.
        -- now rewrite H.
        -- now inversion H.
      * split; [discriminate|].
        intros (post & H). inversion H. subst. now contradiction Hne.
Qed.

(** [includes] finds [sub] exactly when it lies somewhere in [s]. *)
Lemma includes_spec sub s :
  Js.includes sub s = true
  <-> exists pre post, s = (pre ++ sub ++ post)%string.
Proof.
  induction s as [|c s IH]; cbn [Js.includes].
  - destruct (prefix sub "") eqn:Hp.
    + split; [intros _|reflexivity].
      apply prefix_append in Hp. destruct Hp as (post & Hp).
      exists "", post. exact Hp.
    + split; [discriminate|].
      intros (pre & post & H).
      destruct pre; cbn in H.
      * assert (prefix sub "" = true) by (apply prefix_append; eauto). congruence.
      * discriminate H.
  - destruct (prefix sub (String c s)) eqn:Hp.
    + split; [intros _|reflexivity].
      apply prefix_append in Hp. destruct Hp as (post & Hp).
      exists "", post. exact Hp.
    + rewrite IH. split.
      * intros (pre & post & H). exists (String c pre), post. cbn. now rewrite H.
      * intros (pre & post & H). destruct pre as [|x pre]; cbn in H.
        -- assert (prefix sub (String c s) = true) by (apply prefix_append; eauto).
           congruence.
        -- inversion H. eauto.
Qed.

Lemma includes_trans a b c :
  Js.includes a b = true -> Js.includes b c = true -> Js.includes a c = true.
Proof.
  rewrite !includes_spec.
  intros (p1 & q1 & H1) (p2 & q2 & H2). subst.
  exists (p2 ++ p1)%string, (q1 ++ q2)%string.
  now rewrite !append_assoc_string.
Qed.


(* ===================================================================== *)
(** * More properties of the route                                        *)
(* ===================================================================== *)

Ltac unfold_handlers :=
  unfold run, handleRefundRequest, handleCaptureRequest,
    try_catch, bind, lift, await, ret, log, get.

Lemma refund_responds_status w parameters tr :
  exists tr' r,
    handleRefundRequest w parameters tr = (tr', inr r)
    /\ res_headers r = corsHeaders
    /\ In (res_status r) [200; 400; 404; 500].
Proof.
  unfold_handlers. split_cases;
    eexists; eexists; (split; [reflexivity|]); (split; [reflexivity|]);
    cbn; auto 6.
Qed.

Lemma capture_responds_status w parameters tr :
  exists tr' r,
    handleCaptureRequest w parameters tr = (tr', inr r)
    /\ res_headers r = corsHeaders
    /\ In (res_status r) [200; 400; 500].
Proof.
  unfold_handlers. split_cases;
    eexists; eexists; (split; [reflexivity|]); (split; [reflexivity|]);
    cbn; auto 6.
Qed.

(** X1: [POST] answers every request, whatever the body, the environment
    and the SDK do: no rejection leaves it. Its status is 200, 400, 404 or
    500, and the answer carries the CORS headers unless it is the 404 of an
    unknown tool. *)
Theorem POST_always_answers (w : World) (request : Request) :
  exists tr r,
    run (POST w request) = (tr, inr r)
    /\ In (res_status r) [200; 400; 404; 500]
    /\ (res_headers r = corsHeaders
        \/ exists toolName, r = tool_not_found toolName).
Proof.
  unfold run, POST, try_catch.
  destruct (opt_truthy (STRIPE_SECRET_KEY w)); cbn [negb];
    [|eexists; eexists; split; [reflexivity | split; [cbn; auto 6 | left; reflexivity]]].
  unfold bind at 1. unfold lift at 1.
  destruct (json request) as [e|body];
    [eexists; eexists; split; [reflexivity | split; [cbn; auto 6 | left; reflexivity]]|].
  unfold bind at 1. unfold lift at 1.
  destruct (get body "toolName") as [e|toolName];
    [eexists; eexists; split; [reflexivity | split; [cbn; auto 6 | left; reflexivity]]|].
  unfold bind at 1. unfold lift at 1.
  destruct (get body "parameters") as [e|parameters];
    [eexists; eexists; split; [reflexivity | split; [cbn; auto 6 | left; reflexivity]]|].
  destruct (Js.truthy toolName); cbn [negb];
    [|eexists; eexists; split; [reflexivity | split; [cbn; auto 6 | left; reflexivity]]].
  unfold bind at 1. unfold lift at 1.
  destruct (dispatch w toolName) as [e|[| |tool|]];
    [eexists; eexists; split; [reflexivity | split; [cbn; auto 6 | left; reflexivity]]| | | |].
  - destruct (refund_responds_status w parameters []) as (tr' & r & E & H & Hs).
    rewrite E. eauto 6.
  - destruct (capture_responds_status w parameters []) as (tr' & r & E & H & Hs).
    rewrite E. exists tr', r. split; [reflexivity|]. split; [|left; exact H].
    cbn in Hs |- *. intuition.
  - unfold bind, await, lift, ret.
    destruct (handleToolCall w _) as [e|result];
      [eexists; eexists; split; [reflexivity | split; [cbn; auto 6 | left; reflexivity]]|].
    destruct (get result "content");
      eexists; eexists; (split; [reflexivity|]); (split; [cbn; auto 6 | left; reflexivity]).
  - unfold bind, lift, ret, log, template_literal.
    destruct (existsb _ _);
      [eexists; eexists; split;
         [reflexivity | split; [cbn; auto 6 | left; reflexivity]]
      |eexists; eexists; split;
         [reflexivity | split; [cbn; auto 6 | right; eexists; reflexivity]]].
Qed.

(** X2: the two handlers answer whatever they are given (missing
    parameters included) and whatever the SDK does: the refund handler with
    200, 400, 404 or 500, the capture handler with 200, 400 or 500, always
    with the CORS headers. *)
Theorem handlers_always_answer (w : World) (parameters : Js.value) :
  (exists tr r,
     run (handleRefundRequest w parameters) = (tr, inr r)
     /\ res_headers r = corsHeaders
     /\ In (res_status r) [200; 400; 404; 500])
  /\
  (exists tr r,
     run (handleCaptureRequest w parameters) = (tr, inr r)
     /\ res_headers r = corsHeaders
     /\ In (res_status r) [200; 400; 500]).
Proof.
  split.
  - apply refund_responds_status.
  - apply capture_responds_status.
Qed.

(** X3: a request makes the refund handler create one refund at most, and
    never capture; it makes the capture handler call the capture once at
    most, and nothing else. *)
Theorem handlers_call_once (w : World) (parameters : Js.value) :
  (length (filter is_refund (fst (run (handleRefundRequest w parameters)))) <= 1)%nat
  /\ existsb is_capture (fst (run (handleRefundRequest w parameters))) = false
  /\ (capability_calls (fst (run (handleCaptureRequest w parameters))) = []
      \/ exists id p,
           capability_calls (fst (run (handleCaptureRequest w parameters)))
           = [PaymentIntentsCapture id p]).
Proof.
  split; [|split].
  - unfold_handlers. split_cases; cbn; lia.
  - unfold_handlers. split_cases; reflexivity.
  - unfold_handlers. split_cases; cbn; eauto.
Qed.

Ltac refunded_last :=
  do 3 eexists; (split; [reflexivity|]); (split; [reflexivity|]);
  (split; [eassumption | reflexivity]).

(** X4: a 200 of the refund handler means a refund was created: the last
    call made is [refunds.create], it resolved, the body carries what it
    resolved to, and no refund was asked for before it. *)
Theorem refund_success_means_refunded (w : World) (parameters : Js.value)
    (tr : trace) (r : Response) :
  run (handleRefundRequest w parameters) = (tr, inr r) ->
  res_status r = 200 ->
  exists before args refund message,
    tr = (before ++ [RefundsCreate args])%list
    /\ existsb is_refund before = false
    /\ refunds_create w args = inr refund
    /\ res_body r = Result refund message.
Proof.
  unfold_handlers. split_cases; intros H Hs;
    try discriminate H; injection H as <- <-;
    try discriminate Hs;
    first
      [ solve [exists []; refunded_last]
      | solve [eexists [_]; refunded_last]
      | solve [eexists [_; _]; refunded_last]
      | solve [eexists [_; _; _]; refunded_last] ].
Qed.

(** X5: an answer of 400 or 404 of the refund handler means that no refund
    was asked for. *)
Theorem refund_client_error_means_no_refund (w : World) (parameters : Js.value)
    (tr : trace) (r : Response) :
  run (handleRefundRequest w parameters) = (tr, inr r) ->
  res_status r = 400 \/ res_status r = 404 ->
  existsb is_refund tr = false.
Proof.
  unfold_handlers. split_cases; intros H Hs;
    try discriminate H; injection H as <- <-;
    try reflexivity;
    destruct Hs as [Hs|Hs]; discriminate Hs.
Qed.

Lemma or_else_truthy a b : Js.truthy b = true -> Js.truthy (Js.or_else a b) = true.
Proof. unfold Js.or_else. destruct (Js.truthy a) eqn:E; auto. Qed.

(** X6: every refund the handler asks for carries the request's [amount] as
    it is, its [reason] or "requested_by_customer", and its [metadata] or an
    empty object; the reason and the metadata sent are never empty. *)
Theorem refund_params_from_request (w : World) (parameters : Js.value)
    (args : RefundCreateParams) :
  In (RefundsCreate args) (fst (run (handleRefundRequest w parameters))) ->
  amount args = field parameters "amount"
  /\ reason args
     = Js.or_else (field parameters "reason") (Js.Str "requested_by_customer")
  /\ metadata args = Js.or_else (field parameters "metadata") (Js.Obj [])
  /\ Js.truthy (reason args) = true
  /\ Js.truthy (metadata args) = true.
Proof.
  unfold_handlers. split_cases; cbn [fst app In]; intros H;
    repeat (destruct H as [H|H]; try discriminate H); try contradiction;
    inversion H; subst; cbn [amount reason metadata];
    repeat split; apply or_else_truthy; reflexivity.
Qed.

(** ** The dispatcher *)

Lemma capture_alias_includes toolName :
  is_capture_alias (Js.Str toolName) = true -> Js.includes "capture" toolName = true.
Proof.
  unfold is_capture_alias, is_string. intros H.
  repeat (apply orb_true_elim in H; destruct H as [H|H]);
    apply String.eqb_eq in H; subst; reflexivity.
Qed.

Lemma refund_alias_not_capture toolName :
  is_refund_alias (Js.Str toolName) = true ->
  is_capture_alias (Js.Str toolName) = false
  /\ Js.includes "capture_payment_intent" toolName = false.
Proof.
  unfold is_refund_alias, is_string. intros H.
  repeat (apply orb_true_elim in H; destruct H as [H|H]);
    apply String.eqb_eq in H; subst; split; reflexivity.
Qed.

Lemma capture_alias_not_refund toolName :
  is_capture_alias (Js.Str toolName) = true ->
  is_refund_alias (Js.Str toolName) = false.
Proof.
  unfold is_capture_alias, is_string. intros H.
  repeat (apply orb_true_elim in H; destruct H as [H|H]);
    apply String.eqb_eq in H; subst; reflexivity.
Qed.

Lemma find_in_catalog w toolName :
  in_catalog w toolName = true ->
  exists tool,
    find (fun t => name_is t (Js.Str toolName)) (getTools w) = Some tool.
Proof.
  unfold in_catalog. induction (getTools w) as [|t tools IH]; cbn; [discriminate|].
  intros H.
  destruct (name_is t (Js.Str toolName)); [eauto | apply IH, H].
Qed.

Lemma in_catalog_find w toolName :
  find (fun t => name_is t (Js.Str toolName)) (getTools w) = None ->
  in_catalog w toolName = false.
Proof.
  intros H. destruct (in_catalog w toolName) eqn:E; [|reflexivity].
  apply find_in_catalog in E. destruct E as (tool & E). congruence.
Qed.

(** X7: the aliases come before the catalog. A refund alias is answered by
    the refund handler, and a capture alias or any name that contains
    "capture_payment_intent" by the capture handler, even when the SDK
    catalog has a tool of that very name. *)
Theorem aliases_before_catalog (w : World) (toolName : string) :
  (is_refund_alias (Js.Str toolName) = true ->
   dispatch w (Js.Str toolName) = inr RefundResolver)
  /\ (is_capture_alias (Js.Str toolName) = true ->
      dispatch w (Js.Str toolName) = inr CaptureResolver)
  /\ (Js.includes "capture_payment_intent" toolName = true ->
      dispatch w (Js.Str toolName) = inr CaptureResolver).
Proof.
  unfold dispatch. split; [|split]; intros H.
  - now rewrite H.
  - now rewrite (capture_alias_not_refund _ H), H.
  - destruct (is_refund_alias (Js.Str toolName)) eqn:Hr.
    + apply refund_alias_not_capture in Hr. destruct Hr as [_ Hr]. congruence.
    + destruct (is_capture_alias (Js.Str toolName)); [reflexivity|].
      cbn [includes_method]. now rewrite H.
Qed.

(** For any catalog: a tool name that is a string never makes the
    dispatcher throw, and it is unknown exactly when the lookup of line 67
    finds no tool of that name and the name contains neither "refund" nor
    "capture". *)
Lemma dispatch_not_found_iff (w : World) (toolName : string) :
  (exists target, dispatch w (Js.Str toolName) = inr target)
  /\ (dispatch w (Js.Str toolName) = inr NotFound
      <-> in_catalog w toolName = false
          /\ Js.includes "refund" toolName = false
          /\ Js.includes "capture" toolName = false).
Proof.
  unfold dispatch. cbn [includes_method].
  destruct (is_refund_alias (Js.Str toolName)) eqn:Hr.
  { split; [eauto|]. split; [discriminate|].
    intros (_ & H & _). apply refund_alias_includes in Hr. congruence. }
  destruct (is_capture_alias (Js.Str toolName)) eqn:Hc.
  { split; [eauto|]. split; [discriminate|].
    intros (_ & _ & H). apply capture_alias_includes in Hc. congruence. }
  destruct (Js.includes "capture_payment_intent" toolName) eqn:Hi.
  { split; [eauto|]. split; [discriminate|].
    intros (_ & _ & H).
    assert (Js.includes "capture" toolName = true)
      by (apply (includes_trans _ "capture_payment_intent"); [reflexivity | exact Hi]).
    congruence. }
  destruct (find _ (getTools w)) as [tool|] eqn:Hf.
  { split; [eauto|]. split; [discriminate|].
    intros (H & _). rewrite (find_not_in_catalog _ _ H) in Hf. discriminate Hf. }
  apply in_catalog_find in Hf.
  destruct (Js.includes "refund" toolName);
    [split; [eauto|]; split; [discriminate | intros (_ & H & _); discriminate H]|].
  destruct (Js.includes "capture" toolName);
    [split; [eauto|]; split; [discriminate | intros (_ & _ & H); discriminate H]|].
  split; [eauto|]. split; auto.
Qed.

(** The tools of the toolkit have no [name] of their own: the lookup of
    line 67 finds none of them, whatever the tool name is. *)
Lemma openai_tool_unnamed (function toolName : Js.value) :
  name (openai_tool function) = Js.Undefined
  /\ name_is (openai_tool function) toolName = false.
Proof. split; reflexivity. Qed.

Lemma find_openai_tool (functions : list Js.value) (toolName : Js.value) :
  find (fun t => name_is t toolName) (map openai_tool functions) = None.
Proof. induction functions as [|f functions IH]; [reflexivity | exact IH]. Qed.

Lemma openai_not_in_catalog (w : World) (functions : list Js.value)
    (toolName : string) :
  getTools w = map openai_tool functions ->
  in_catalog w toolName = false.
Proof.
  intros H. apply in_catalog_find. rewrite H. apply find_openai_tool.
Qed.

Lemma dispatch_not_catalog (w : World) (functions : list Js.value)
    (toolName : Js.value) (tool : Tool) :
  getTools w = map openai_tool functions ->
  dispatch w toolName <> inr (Catalog tool).
Proof.
  intros H. unfold dispatch. rewrite H, find_openai_tool.
  split_cases; discriminate.
Qed.

(** X8: with the catalog as the toolkit builds it, tools in the format of
    OpenAI's function calling that have no [name] of their own, a tool name
    that is a string never makes the dispatcher throw, is never run as a tool
    of the catalog, and is unknown (the 404) exactly when it contains neither
    "refund" nor "capture". *)
Theorem unknown_tool_iff (w : World) (functions : list Js.value)
    (toolName : string) :
  getTools w = map openai_tool functions ->
  (exists target, dispatch w (Js.Str toolName) = inr target)
  /\ (forall tool, dispatch w (Js.Str toolName) <> inr (Catalog tool))
  /\ (dispatch w (Js.Str toolName) = inr NotFound
      <-> Js.includes "refund" toolName = false
          /\ Js.includes "capture" toolName = false).
Proof.
  intros Hg.
  destruct (dispatch_not_found_iff w toolName) as (Ht & Hn).
  pose proof (openai_not_in_catalog w functions toolName Hg) as Hc.
  split; [exact Ht|]. split.
  - intros tool. exact (dispatch_not_catalog w functions _ tool Hg).
  - rewrite Hn. tauto.
Qed.

(** ** The early answers of [POST] *)

(** X9: without the secret key [POST] answers 500 "STRIPE_SECRET_KEY not
    configured" before it reads the request: nothing is called, whatever the
    request is. *)
Theorem POST_without_secret (w : World) (request : Request) :
  opt_truthy (STRIPE_SECRET_KEY w) = false ->
  run (POST w request) = ([], inr not_configured)
  /\ res_status not_configured = 500.
Proof.
  intros H. split; [|reflexivity].
  unfold run, POST, try_catch. rewrite H. reflexivity.
Qed.

(** X10: a body that has no [toolName], or an empty one, is answered with
    400 "toolName is required", and nothing is called. *)
Theorem POST_without_toolName (w : World) (request : Request) (body : Js.value) :
  opt_truthy (STRIPE_SECRET_KEY w) = true ->
  json request = inr body ->
  Js.nullish body = false ->
  Js.truthy (field body "toolName") = false ->
  run (POST w request) = ([], inr tool_name_required)
  /\ res_status tool_name_required = 400.
Proof.
  intros Hs Hj Hb Ht. split; [|reflexivity].
  unfold run, POST, try_catch, bind, lift, ret, get.
  rewrite Hs, Hj, Hb. cbn [negb]. rewrite Ht. reflexivity.
Qed.

(** X11: a body that cannot be parsed, and a body that is [null], are
    answered with 500 and the message of what was thrown; nothing but the
    logging happens. *)
Theorem POST_unreadable_body (w : World) (request : Request) :
  opt_truthy (STRIPE_SECRET_KEY w) = true ->
  (forall e,
     json request = inl e ->
     run (POST w request)
     = ([ConsoleError "Error calling Stripe tool:" e], inr (post_catch e)))
  /\
  (forall body,
     json request = inr body ->
     Js.nullish body = true ->
     exists e,
       run (POST w request)
       = ([ConsoleError "Error calling Stripe tool:" e], inr (post_catch e))
       /\ Js.truthy (message_of e) = true)
  /\ forall e, res_status (post_catch e) = 500.
Proof.
  intros Hs. split; [|split].
  - intros e Hj. unfold run, POST, try_catch, bind, lift, ret, log.
    rewrite Hs, Hj. reflexivity.
  - intros body Hj Hb. unfold run, POST, try_catch, bind, lift, ret, log, get.
    rewrite Hs, Hj, Hb.
    exists (TypeError "Cannot read properties of undefined (reading 'toolName')").
    split; reflexivity.
  - reflexivity.
Qed.

(** A tool name that is truthy but is a number, a boolean or an object has
    no [includes] to call: [POST] answers 500 and reaches no handler and no
    tool. *)
Lemma POST_tool_name_without_includes (w : World) (request : Request)
    (body : Js.value) :
  opt_truthy (STRIPE_SECRET_KEY w) = true ->
  json request = inr body ->
  Js.nullish body = false ->
  lacks_includes (field body "toolName") = true ->
  exists e,
    run (POST w request)
    = ([ConsoleError "Error calling Stripe tool:" e], inr (post_catch e))
    /\ res_status (post_catch e) = 500.
Proof.
  intros Hs Hj Hb Hl.
  unfold run, POST, try_catch, bind, lift, ret, log, get.
  rewrite Hs, Hj, Hb. cbn [negb].
  destruct (field body "toolName") as [| |tb|x|s|l|o]; try discriminate Hl;
    cbn [lacks_includes Js.truthy] in Hl; cbn [Js.truthy]; rewrite ?Hl;
    exists (TypeError "toolName.includes is not a function");
    split; reflexivity.
Qed.

Lemma handlers_run_no_tool (w : World) (parameters : Js.value) :
  existsb is_tool_call (fst (run (handleRefundRequest w parameters))) = false
  /\ existsb is_tool_call (fst (run (handleCaptureRequest w parameters))) = false.
Proof. split; unfold_handlers; split_cases; reflexivity. Qed.

(** X12: with the catalog as the toolkit builds it, the lookup of line 67
    finds no tool, so lines 85-99 are never reached: whatever the request,
    [POST] makes no call of [handleToolCall]. *)
Theorem POST_runs_no_catalog_tool (w : World) (functions : list Js.value)
    (request : Request) :
  getTools w = map openai_tool functions ->
  existsb is_tool_call (fst (run (POST w request))) = false.
Proof.
  intros Hg. unfold run, POST, try_catch.
  destruct (opt_truthy (STRIPE_SECRET_KEY w)); cbn [negb]; [|reflexivity].
  unfold bind at 1. unfold lift at 1.
  destruct (json request) as [e|body]; [reflexivity|].
  unfold bind at 1. unfold lift at 1.
  destruct (get body "toolName") as [e|toolName]; [reflexivity|].
  unfold bind at 1. unfold lift at 1.
  destruct (get body "parameters") as [e|parameters]; [reflexivity|].
  destruct (Js.truthy toolName); cbn [negb]; [|reflexivity].
  unfold bind at 1. unfold lift at 1.
  destruct (dispatch w toolName) as [e|[| |tool|]] eqn:Hd; [reflexivity| | | |].
  - destruct (handleRefundRequest_responds w parameters []) as (tr' & r & E & _).
    pose proof (proj1 (handlers_run_no_tool w parameters)) as Hn.
    unfold run in Hn. rewrite E in Hn |- *. exact Hn.
  - destruct (handleCaptureRequest_responds w parameters []) as (tr' & r & E & _).
    pose proof (proj2 (handlers_run_no_tool w parameters)) as Hn.
    unfold run in Hn. rewrite E in Hn |- *. exact Hn.
  - exfalso. exact (dispatch_not_catalog w functions toolName tool Hg Hd).
  - unfold bind, lift, ret, log, template_literal.
    destruct (Js.unprintable toolName) eqn:Hu; cbn; rewrite Hu; reflexivity.
Qed.

(** ** The other paths of [handleRefundRequest] *)

Section RefundPaths.

Variable w : World.
Variable fields : list (string * Js.value).

Let parameters := Js.Obj fields.

(** X13: with no usable [charge_id], a [payment_intent_id] whose payment
    intent has a latest charge gets that charge refunded, be the charge given
    as a bare id or as an expanded object; nothing is looked up. *)
Theorem refund_by_payment_intent (paymentIntent : PaymentIntent.t)
    (latest_charge : charge_ref) :
  Js.truthy (field parameters "charge_id") = false ->
  Js.truthy (field parameters "payment_intent_id") = true ->
  paymentIntents_retrieve w (field parameters "payment_intent_id") = inr paymentIntent ->
  PaymentIntent.latest_charge paymentIntent = Some latest_charge ->
  ref_truthy latest_charge = true ->
  run (handleRefundRequest w parameters)
  = refund_issued w
      [PaymentIntentsRetrieve (field parameters "payment_intent_id")]
      (refund_args parameters
         (Js.Str match latest_charge with
                 | ChargeId id => id
                 | Expanded c => Charge.id c
                 end))
      None.
Proof.
  intros Hc Hp Hr Hl Ht. subst parameters.
  step_handler. use_hyps. rewrite Hl. rewrite Ht. cbn [negb].
  change (ref_id latest_charge) with
    (match latest_charge with ChargeId id => id | Expanded c => Charge.id c end).
  destruct (refunds_create w _); reflexivity.
Qed.

(** When the payment found for [orderIdentifier] names no charge of its own
    (none, or one whose id is empty) but carries a payment intent with a
    latest charge, that charge is refunded. *)
Lemma refund_by_order_intent (paymentInfo : PaymentInfo.t)
    (paymentIntent : PaymentIntent.t) (latest_charge : charge_ref) :
  Js.truthy (field parameters "charge_id") = false ->
  Js.truthy (field parameters "payment_intent_id") = false ->
  Js.truthy (field parameters "orderIdentifier") = true ->
  Js.unprintable (field parameters "orderIdentifier") = false ->
  findPaymentByIdentifier w (field parameters "orderIdentifier") = inr (Some paymentInfo) ->
  opt_truthy (option_map Charge.id (PaymentInfo.charge paymentInfo)) = false ->
  PaymentInfo.paymentIntent paymentInfo = Some paymentIntent ->
  PaymentIntent.latest_charge paymentIntent = Some latest_charge ->
  ref_truthy latest_charge = true ->
  string_truthy (ref_id latest_charge) = true ->
  run (handleRefundRequest w parameters)
  = refund_issued w
      [FindPaymentByIdentifier (field parameters "orderIdentifier")]
      (refund_args parameters (Js.Str (ref_id latest_charge)))
      (Some [Lit "Refund processed for order ";
             Subst (field parameters "orderIdentifier")]).
Proof.
  intros Hc Hp Ho Hu Hf Hch Hpi Hl Ht Hid. subst parameters.
  step_handler. use_hyps. rewrite orb_true_r. simpl_handler. use_hyps.
  unfold opt_or. rewrite Hch, ?Hpi, ?Hl, ?Ht. cbn [option_map opt_truthy].
  rewrite ?Hid. cbn [negb]. rewrite ?Hid. cbn [negb].
  replace (Js.or_else (field (Js.Obj fields) "orderIdentifier") (Js.Str "N/A"))
    with (field (Js.Obj fields) "orderIdentifier")
    by (unfold Js.or_else; rewrite Ho; reflexivity).
  rewrite (template_literal_subst _ _ Hu).
  destruct (refunds_create w _); reflexivity.
Qed.

(** An [orderIdentifier] that cannot be printed makes line 230 throw once
    the refund has been created: the refund is made, and the answer is the
    500 of the catch. *)
Lemma refund_by_unprintable_order (paymentInfo : PaymentInfo.t) (c : Charge.t)
    (refund : Js.value) :
  Js.truthy (field parameters "charge_id") = false ->
  Js.truthy (field parameters "payment_intent_id") = false ->
  Js.truthy (field parameters "orderIdentifier") = true ->
  Js.unprintable (field parameters "orderIdentifier") = true ->
  findPaymentByIdentifier w (field parameters "orderIdentifier") = inr (Some paymentInfo) ->
  PaymentInfo.charge paymentInfo = Some c ->
  string_truthy (Charge.id c) = true ->
  refunds_create w (refund_args parameters (Js.Str (Charge.id c))) = inr refund ->
  let e := TypeError "Cannot convert object to primitive value" in
  run (handleRefundRequest w parameters)
  = ([FindPaymentByIdentifier (field parameters "orderIdentifier");
      RefundsCreate (refund_args parameters (Js.Str (Charge.id c)));
      ConsoleError "Error handling refund request:" e],
     inr (refund_catch e))
  /\ res_status (refund_catch e) = 500.
Proof.
  intros Hc Hp Ho Hu Hf Hch Hid Hr. subst parameters. cbv zeta.
  split; [|reflexivity]. unfold refund_args in Hr.
  step_handler. use_hyps. rewrite orb_true_r. simpl_handler. use_hyps.
  rewrite Hch. unfold opt_or. cbn [option_map opt_truthy]. rewrite Hid.
  cbn [negb]. rewrite ?Hid. cbn [negb].
  replace (Js.or_else (field (Js.Obj fields) "orderIdentifier") (Js.Str "N/A"))
    with (field (Js.Obj fields) "orderIdentifier")
    by (unfold Js.or_else; rewrite Ho; reflexivity).
  rewrite (template_literal_unprintable _ _ Hu), Hr. reflexivity.
Qed.

(** X15: when the payment found for [orderIdentifier] has neither a charge
    nor a payment intent with a latest charge, the answer is 400 "Could not
    find charge to refund"; no refund is asked for and the customer is not
    looked up, even if [customerIdentifier] is given. *)
Theorem refund_order_without_charge (paymentInfo : PaymentInfo.t) :
  Js.truthy (field parameters "charge_id") = false ->
  Js.truthy (field parameters "payment_intent_id") = false ->
  Js.truthy (field parameters "orderIdentifier") = true ->
  findPaymentByIdentifier w (field parameters "orderIdentifier") = inr (Some paymentInfo) ->
  PaymentInfo.charge paymentInfo = None ->
  (PaymentInfo.paymentIntent paymentInfo = None
   \/ exists paymentIntent,
        PaymentInfo.paymentIntent paymentInfo = Some paymentIntent
        /\ PaymentIntent.latest_charge paymentIntent = None) ->
  run (handleRefundRequest w parameters)
  = ([FindPaymentByIdentifier (field parameters "orderIdentifier")],
     inr no_charge_found)
  /\ res_status no_charge_found = 400.
Proof.
  intros Hc Hp Ho Hf Hch Hpi. subst parameters. split; [|reflexivity].
  step_handler. use_hyps. rewrite orb_true_r. simpl_handler. use_hyps.
  rewrite ?Hch. destruct Hpi as [Hpi|(paymentIntent & Hpi & Hl)].
  - rewrite Hpi. reflexivity.
  - rewrite Hpi, Hl. reflexivity.
Qed.

(** X16: when the lookup of [orderIdentifier] finds nothing and a
    [customerIdentifier] is given too, the handler goes on to the customer:
    the customer is looked up after the order; with no such customer the
    answer is the 404 of the customer path, which names the identifier (so
    this is for an identifier that can be printed, as every string can), and
    otherwise the customer's first listed charge is refunded. *)
Theorem refund_order_then_customer :
  Js.truthy (field parameters "charge_id") = false ->
  Js.truthy (field parameters "payment_intent_id") = false ->
  Js.truthy (field parameters "orderIdentifier") = true ->
  Js.truthy (field parameters "customerIdentifier") = true ->
  findPaymentByIdentifier w (field parameters "orderIdentifier") = inr None ->
  let orderIdentifier := field parameters "orderIdentifier" in
  let customerIdentifier := field parameters "customerIdentifier" in
  (findCustomerByIdentifier w customerIdentifier = inr None ->
   Js.unprintable customerIdentifier = false ->
   run (handleRefundRequest w parameters)
   = ([FindPaymentByIdentifier orderIdentifier;
       FindCustomerByIdentifier customerIdentifier],
      inr (customer_not_found customerIdentifier))
   /\ res_status (customer_not_found customerIdentifier) = 404)
  /\
  (forall customer charges first rest,
     findCustomerByIdentifier w customerIdentifier = inr (Some customer) ->
     charges_list w (Customer.id customer) 10 = inr charges ->
     ApiList.data charges = first :: rest ->
     run (handleRefundRequest w parameters)
     = refund_issued w
         [FindPaymentByIdentifier orderIdentifier;
          FindCustomerByIdentifier customerIdentifier;
          ChargesList (Customer.id customer) 10]
         (refund_args parameters (Js.Str (Charge.id first)))
         (Some [Lit "Refund processed for customer ";
                Subst (Js.Str (Customer.id customer));
                Lit " on charge ";
                Subst (Js.Str (Charge.id first))])).
Proof.
  intros Hc Hp Ho Hk Hf. subst parameters. cbv zeta. split.
  - intros Hcu Hu. split; [|reflexivity]. step_handler. use_hyps.
    rewrite (template_literal_subst _ _ Hu). reflexivity.
  - intros customer charges first rest Hcu Hl Hd.
    step_handler. use_hyps.
    destruct (refunds_create w _); reflexivity.
Qed.

(** X14: with [orderIdentifier] as the identifier in use (one that can be
    printed, as every string can: the message names it), the payment found
    for it decides the charge: its own charge when it has one with a
    non-empty id, and otherwise (no charge, or a charge whose id is empty)
    the latest charge of its payment intent. That charge is refunded and the
    message names the order; the customer is not looked up, even when
    [customerIdentifier] is given too. *)
Theorem refund_of_order (paymentInfo : PaymentInfo.t) :
  Js.truthy (field parameters "charge_id") = false ->
  Js.truthy (field parameters "payment_intent_id") = false ->
  Js.truthy (field parameters "orderIdentifier") = true ->
  Js.unprintable (field parameters "orderIdentifier") = false ->
  findPaymentByIdentifier w (field parameters "orderIdentifier") = inr (Some paymentInfo) ->
  let refunded id :=
    run (handleRefundRequest w parameters)
    = refund_issued w
        [FindPaymentByIdentifier (field parameters "orderIdentifier")]
        (refund_args parameters (Js.Str id))
        (Some [Lit "Refund processed for order ";
               Subst (field parameters "orderIdentifier")]) in
  (forall c,
     PaymentInfo.charge paymentInfo = Some c ->
     Charge.id c <> "" ->
     refunded (Charge.id c))
  /\
  (forall paymentIntent latest_charge,
     match PaymentInfo.charge paymentInfo with
     | Some c => Charge.id c = ""
     | None => True
     end ->
     PaymentInfo.paymentIntent paymentInfo = Some paymentIntent ->
     PaymentIntent.latest_charge paymentIntent = Some latest_charge ->
     ref_id latest_charge <> "" ->
     refunded (ref_id latest_charge)).
Proof.
  intros Hc Hp Ho Hu Hf. cbv zeta. split.
  - intros c Hch Hid.
    apply (refund_by_order w fields paymentInfo c Hc Hp Ho Hu Hf Hch).
    destruct (Charge.id c); [contradiction | reflexivity].
  - intros paymentIntent latest_charge Hch Hpi Hl Hid.
    assert (Ht : string_truthy (ref_id latest_charge) = true)
      by (destruct (ref_id latest_charge); [contradiction | reflexivity]).
    assert (Hno : opt_truthy (option_map Charge.id (PaymentInfo.charge paymentInfo))
                  = false).
    { destruct (PaymentInfo.charge paymentInfo) as [c|]; [|reflexivity].
      cbn. rewrite Hch. reflexivity. }
    apply (refund_by_order_intent paymentInfo paymentIntent latest_charge
             Hc Hp Ho Hu Hf Hno Hpi Hl); [|exact Ht].
    destruct latest_charge; [exact Ht | reflexivity].
Qed.

End RefundPaths.

(** X17: a 500 of the refund handler always follows something thrown: it
    is logged as the last event, and the body is its message, or "Failed to
    process refund" when it has none. *)
Theorem refund_failure_is_logged (w : World) (parameters : Js.value)
    (tr : trace) (r : Response) :
  run (handleRefundRequest w parameters) = (tr, inr r) ->
  res_status r = 500 ->
  exists before e,
    tr = (before ++ [ConsoleError "Error handling refund request:" e])%list
    /\ res_body r
       = Error (Val (Js.or_else (message_of e) (Js.Str "Failed to process refund"))).
Proof.
  unfold_handlers. split_cases; intros H Hs;
    try discriminate H; injection H as <- <-;
    try discriminate Hs;
    first
      [ solve [exists []; eexists; split; reflexivity]
      | solve [eexists [_]; eexists; split; reflexivity]
      | solve [eexists [_; _]; eexists; split; reflexivity]
      | solve [eexists [_; _; _]; eexists; split; reflexivity]
      | solve [eexists [_; _; _; _]; eexists; split; reflexivity] ].
Qed.

(** Parameters that are [undefined] or [null] make both handlers answer 500
    with the message of the [TypeError]; nothing is called. *)
Lemma handlers_without_parameters_500 (w : World) (parameters : Js.value) :
  Js.nullish parameters = true ->
  (exists e,
     run (handleRefundRequest w parameters)
     = ([ConsoleError "Error handling refund request:" e], inr (refund_catch e))
     /\ Js.truthy (message_of e) = true)
  /\
  (exists e,
     run (handleCaptureRequest w parameters)
     = ([ConsoleError "Error capturing payment intent:" e], inr (capture_catch e))
     /\ Js.truthy (message_of e) = true)
  /\ forall e, res_status (refund_catch e) = 500 /\ res_status (capture_catch e) = 500.
Proof.
  intros H. unfold_handlers. rewrite H. split; [|split].
  - eexists (TypeError _). split; reflexivity.
  - eexists (TypeError _). split; reflexivity.
  - intros e. split; reflexivity.
Qed.

(** ** The amount of a capture *)

Lemma number_truthy_not_NaN x :
  Js.number_truthy x && negb (Js.is_NaN x) = Js.number_truthy x.
Proof. destruct x; reflexivity. Qed.

(** X18: whatever [amount] holds, making the capture parameters throws
    exactly when [Number(amount)] does (an object that has a [toString] of
    its own, or an array that holds one); otherwise the capture asks for
    [Math.round(Number(amount))] exactly when [Number(amount)] is neither
    zero nor NaN, and for everything when it is: a missing amount, [null],
    ["0"], [0], [""] and what is no number all give a full capture. *)
Theorem captureParams_of_number (amount : Js.value) :
  captureParams_of amount
  = match Js.to_number amount with
    | Some x =>
        inr (if Js.number_truthy x
             then {| amount_to_capture := Some (Js.Math_round x) |}
             else {| amount_to_capture := None |})
    | None => inl (TypeError "Cannot convert object to primitive value")
    end.
Proof.
  unfold captureParams_of, Js.to_number.
  destruct amount as [| |b|x|s|l|o]; try reflexivity.
  - destruct b; reflexivity.
  - cbn [Js.unprintable Js.number_of]. rewrite number_truthy_not_NaN.
    destruct (Js.number_truthy x); reflexivity.
  - destruct s as [|c s]; [reflexivity|].
    cbn [Js.truthy Js.unprintable Js.number_of String.eqb negb].
    rewrite number_truthy_not_NaN.
    destruct (Js.number_truthy _); reflexivity.
  - cbn [Js.truthy]. destruct (Js.unprintable (Js.Arr l)); [reflexivity|].
    rewrite number_truthy_not_NaN.
    destruct (Js.number_truthy _); reflexivity.
  - cbn [Js.truthy]. destruct (Js.unprintable (Js.Obj o)); [reflexivity|].
    rewrite number_truthy_not_NaN.
    destruct (Js.number_truthy _); reflexivity.
Qed.

(** What [Number] gives on some values of a JSON body: a one-element array
    converts as its element does, an object with a [toString] of its own
    does not convert. *)
Example to_number_samples :
  Js.to_number (Js.Str "150.7") = Some (S754_finite false 5302284873786982 (-45))
  /\ Js.to_number (Js.Arr [Js.Str "20"]) = Some (Js.of_Z 20)
  /\ Js.to_number (Js.Arr []) = Some (S754_zero false)
  /\ Js.to_number (Js.Obj []) = Some Js.NaN
  /\ Js.to_number (Js.Obj [("valueOf", Js.Num (Js.of_Z 1))]) = Some Js.NaN
  /\ Js.to_number (Js.Obj [("toString", Js.Num (Js.of_Z 1))]) = None
  /\ Js.to_number (Js.Arr [Js.Obj [("toString", Js.Null)]]) = None.
Proof. repeat apply conj; vm_compute; reflexivity. Qed.

(** Identifiers that cannot be printed, in the demo world: a customer
    identifier [{ "toString": 1 }] is looked up, and the 404 that would name
    it becomes the 500 of the catch; a tool name [[{ "toString": 1 }]] is an
    array, has an [includes], matches nothing, and the 404 that would name it
    becomes a 500 too. *)
Example unprintable_identifier_samples :
  let e := TypeError "Cannot convert object to primitive value" in
  let v := Js.Obj [("toString", Js.Num (Js.of_Z 1))] in
  run (handleRefundRequest Demo.world (Js.Obj [("customerIdentifier", v)]))
  = ([FindCustomerByIdentifier v;
      ConsoleError "Error handling refund request:" e],
     inr (refund_catch e))
  /\ run (POST Demo2.toolkit
            {| json := inr (Js.Obj [("toolName", Js.Arr [v]);
                                    ("parameters", Js.Obj [])]) |})
     = ([ConsoleError "Error calling Stripe tool:" e], inr (post_catch e)).
Proof. split; reflexivity. Qed.

(* ===================================================================== *)
(** * Properties of the list page                                         *)
(* ===================================================================== *)



Lemma filter_refines {A} (f g : A -> bool) (l : list A) :
  (forall x, g x = true -> f x = true) ->
  filter g l = filter g (filter f l).
Proof.
  intros H. induction l as [|x l IH]; cbn; [reflexivity|].
  destruct (g x) eqn:Hg.
  - rewrite (H x Hg). cbn. now rewrite Hg, IH.
  - destruct (f x); cbn; [rewrite Hg|]; exact IH.
Qed.


(** X20: typing more narrows the search. When the query typed so far
    lies in the new query (case apart), the rows for the new query are those
    among the rows shown so far that match it; none is added. *)
Theorem search_narrows (batchCalls : list BatchCall.t) (searchQuery longer : string) :
  Js.includes (JsString.toLowerCase searchQuery) (JsString.toLowerCase longer) = true ->
  OutboundPage.filteredBatchCalls batchCalls longer
  = OutboundPage.filteredBatchCalls
      (OutboundPage.filteredBatchCalls batchCalls searchQuery) longer
  /\ incl (OutboundPage.filteredBatchCalls batchCalls longer)
          (OutboundPage.filteredBatchCalls batchCalls searchQuery).
Proof.
  intros H.
  assert (E : OutboundPage.filteredBatchCalls batchCalls longer
              = OutboundPage.filteredBatchCalls
                  (OutboundPage.filteredBatchCalls batchCalls searchQuery) longer).
  { unfold OutboundPage.filteredBatchCalls. apply filter_refines.
    intros b Hb. unfold OutboundPage.matches in *.
    exact (includes_trans _ _ _ H Hb). }
  split; [exact E|].
  rewrite E. unfold OutboundPage.filteredBatchCalls at 1.
  intros b Hb. apply filter_In in Hb. tauto.
Qed.


(** X22: Retry and Cancel are never offered together: Retry is there for
    the statuses [failed] and [completed] only, Cancel for [pending] and
    [in_progress] only, and any other status (as [cancelled]) has neither;
    a row's menu always starts with the link to the batch call. *)
Theorem actions_by_status (status : string) (batch : BatchCall.t) :
  (length (View.status_actions status) <= 1)%nat
  /\ (In View.Retry (View.status_actions status)
      <-> status = "failed" \/ status = "completed")
  /\ (In View.Cancel (View.status_actions status)
      <-> status = "pending" \/ status = "in_progress")
  /\ OutboundPage.menu (OutboundPage.row batch)
     = View.ViewDetails ("/outbound/" ++ BatchCall.id batch)
       :: View.status_actions (BatchCall.status batch).
Proof.
  unfold View.status_actions, View.retry_shown, View.cancel_shown.
  destruct (status =? "failed")%string eqn:E1;
    [apply String.eqb_eq in E1; subst; cbn; intuition (try discriminate; auto)|].
  destruct (status =? "completed")%string eqn:E2;
    [apply String.eqb_eq in E2; subst; cbn; intuition (try discriminate; auto)|].
  destruct (status =? "pending")%string eqn:E3;
    [apply String.eqb_eq in E3; subst; cbn; intuition (try discriminate; auto)|].
  destruct (status =? "in_progress")%string eqn:E4;
    [apply String.eqb_eq in E4; subst; cbn; intuition (try discriminate; auto)|].
  apply String.eqb_neq in E1, E2, E3, E4. cbn. intuition.
Qed.

(** ** Loading, cancelling and retrying *)

Ltac unfold_ui :=
  unfold Ui.state_after, Ui.events_of, Ui.run,
    OutboundPage.handleCancel, OutboundPage.handleRetry,
    OutboundPage.loadBatchCalls,
    BatchCallDetailPage.handleCancel, BatchCallDetailPage.handleRetry,
    BatchCallDetailPage.loadBatchCall;
  unfold Ui.do_fetch, Ui.do_confirm;
  unfold Ui.finally, Ui.try_catch, Ui.bind, Ui.emit,
    Ui.set, Ui.lift, Ui.ret, Ui.throw, Ui.state, get;
  cbn [fst snd app negb].

Ltac split_ui :=
  repeat (match goal with
          | |- context [match ?x with _ => _ end] =>
              lazymatch x with
              | context [match _ with _ => _ end] => fail
              | _ => destruct x eqn:?
              end
          end; cbn [fst snd app negb]).

(** X23: however the listing goes, [loadBatchCalls] ends with the spinner
    off, throws nothing, leaves the search query as it was and has asked the
    backend once, with a GET of [/api/batch-calls]. *)
Theorem load_list_settles (b : Ui.Browser) (s : OutboundPage.State) :
  OutboundPage.loading (Ui.state_after (OutboundPage.loadBatchCalls b) s) = false
  /\ OutboundPage.searchQuery (Ui.state_after (OutboundPage.loadBatchCalls b) s)
     = OutboundPage.searchQuery s
  /\ snd (Ui.run (OutboundPage.loadBatchCalls b) s) = inr tt
  /\ filter Ui.is_fetch (Ui.events_of (OutboundPage.loadBatchCalls b) s)
     = [Ui.Fetch "/api/batch-calls" "GET"].
Proof.
  unfold_ui. split_ui; repeat split; try reflexivity;
    match goal with u : unit |- _ => destruct u; reflexivity end.
Qed.

(** X24: when the listing fails (the request rejects, the response is not
    ok, or its body cannot be read) the list is emptied and the failure is
    logged; when it succeeds the list is [batch_calls] of the body, or empty
    when the body has none. *)
Theorem load_list_result (b : Ui.Browser) (s : OutboundPage.State) :
  let after := Ui.state_after (OutboundPage.loadBatchCalls b) s in
  (forall e,
     Ui.fetch b "/api/batch-calls" "GET" = inl e ->
     OutboundPage.batchCalls after = Js.Arr []
     /\ In (Ui.ConsoleError "Error loading batch calls:" e)
          (Ui.events_of (OutboundPage.loadBatchCalls b) s))
  /\
  (forall response,
     Ui.fetch b "/api/batch-calls" "GET" = inr response ->
     Ui.ok response = false ->
     OutboundPage.batchCalls after = Js.Arr []
     /\ In (Ui.ConsoleError "Error loading batch calls:"
              (Rejected (Js.Str "Failed to fetch batch calls")))
          (Ui.events_of (OutboundPage.loadBatchCalls b) s))
  /\
  (forall response e,
     Ui.fetch b "/api/batch-calls" "GET" = inr response ->
     Ui.ok response = true ->
     Ui.body_json response = inl e ->
     OutboundPage.batchCalls after = Js.Arr [])
  /\
  (forall response data,
     Ui.fetch b "/api/batch-calls" "GET" = inr response ->
     Ui.ok response = true ->
     Ui.body_json response = inr data ->
     Js.nullish data = false ->
     OutboundPage.batchCalls after
     = (if Js.truthy (field data "batch_calls") then field data "batch_calls"
        else Js.Arr [])
     /\ Ui.events_of (OutboundPage.loadBatchCalls b) s
        = [Ui.Fetch "/api/batch-calls" "GET"]).
Proof.
  cbv zeta. split; [|split; [|split]].
  - intros e H. unfold_ui. rewrite H. cbn. auto.
  - intros response H Hok. unfold_ui. rewrite H. cbn [fst snd app negb].
    rewrite Hok. cbn. auto.
  - intros response e H Hok Hj. unfold_ui. rewrite H. cbn [fst snd app negb].
    rewrite Hok. cbn [fst snd app negb]. rewrite Hj. reflexivity.
  - intros response data H Hok Hj Hn. unfold_ui. rewrite H. cbn [fst snd app negb].
    rewrite Hok. cbn [fst snd app negb]. rewrite Hj. cbn [fst snd app negb].
    rewrite Hn. cbn [fst snd app negb]. split; reflexivity.
Qed.

(** X25: cancelling asks first. When the user declines, nothing is sent
    and nothing changes, on the list page and on the detail page alike. *)
Theorem cancel_declined (b : Ui.Browser) (batchId : string)
    (s : OutboundPage.State) (d : BatchCallDetailPage.State) :
  Ui.confirm b "Are you sure you want to cancel this batch call?" = false ->
  Ui.run (OutboundPage.handleCancel b batchId) s
  = ((s, [Ui.Confirm "Are you sure you want to cancel this batch call?"]), inr tt)
  /\
  (BatchCallDetailPage.batchId d <> "" ->
   Ui.run (BatchCallDetailPage.handleCancel b) d
   = ((d, [Ui.Confirm "Are you sure you want to cancel this batch call?"]), inr tt)).
Proof.
  intros H. split.
  - unfold_ui. rewrite H. reflexivity.
  - intros Hd. unfold_ui.
    destruct (BatchCallDetailPage.batchId d) eqn:E; [contradiction|].
    cbn. rewrite H. reflexivity.
Qed.

(** X26: on the list page a cancel that is confirmed and a retry send
    their request (DELETE of the batch call, POST of its [retry]) and, when
    the backend answers ok, reload the list from there. *)
Theorem list_mutation_reloads (b : Ui.Browser) (batchId : string)
    (s : OutboundPage.State) :
  (forall response,
     Ui.confirm b "Are you sure you want to cancel this batch call?" = true ->
     Ui.fetch b ("/api/batch-calls/" ++ batchId) "DELETE" = inr response ->
     Ui.ok response = true ->
     Ui.run (OutboundPage.handleCancel b batchId) s
     = OutboundPage.loadBatchCalls b
         (s, [Ui.Confirm "Are you sure you want to cancel this batch call?";
              Ui.Fetch ("/api/batch-calls/" ++ batchId) "DELETE"]))
  /\
  (forall response,
     Ui.fetch b ("/api/batch-calls/" ++ batchId ++ "/retry") "POST" = inr response ->
     Ui.ok response = true ->
     Ui.run (OutboundPage.handleRetry b batchId) s
     = OutboundPage.loadBatchCalls b
         (s, [Ui.Fetch ("/api/batch-calls/" ++ batchId ++ "/retry") "POST"])).
Proof.
  split.
  - intros response Hc Hf Hok.
    unfold Ui.run, OutboundPage.handleCancel, Ui.bind at 1, Ui.do_confirm,
      Ui.bind at 1, Ui.emit, Ui.ret.
    cbn [fst snd app]. rewrite Hc. cbn [negb].
    unfold Ui.try_catch, Ui.bind at 1, Ui.do_fetch, Ui.bind at 1, Ui.emit, Ui.lift.
    cbn [fst snd app]. rewrite Hf, Hok. cbn [negb].
    destruct (OutboundPage.loadBatchCalls b _) as [st [e|u]] eqn:E; [|reflexivity].
    exfalso. revert E. unfold_ui. split_ui; discriminate.
  - intros response Hf Hok.
    unfold Ui.run, OutboundPage.handleRetry.
    unfold Ui.try_catch, Ui.bind at 1, Ui.do_fetch, Ui.bind at 1, Ui.emit, Ui.lift.
    cbn [fst snd app]. rewrite Hf, Hok. cbn [negb].
    destruct (OutboundPage.loadBatchCalls b _) as [st [e|u]] eqn:E; [|reflexivity].
    exfalso. revert E. unfold_ui. split_ui; discriminate.
Qed.

(** X27: on the list page a cancel or a retry that the backend refuses, or
    that does not reach it, is logged and shown in an alert (the message of
    what was thrown, or "Failed to cancel/retry batch call"); the list is not
    reloaded and the state stays as it was. *)
Theorem list_mutation_failure_alerts (b : Ui.Browser) (batchId : string)
    (s : OutboundPage.State) :
  let question := "Are you sure you want to cancel this batch call?" in
  let cancel_url := ("/api/batch-calls/" ++ batchId)%string in
  let retry_url := ("/api/batch-calls/" ++ batchId ++ "/retry")%string in
  (forall response,
     Ui.confirm b question = true ->
     Ui.fetch b cancel_url "DELETE" = inr response ->
     Ui.ok response = false ->
     Ui.run (OutboundPage.handleCancel b batchId) s
     = ((s, [Ui.Confirm question;
             Ui.Fetch cancel_url "DELETE";
             Ui.ConsoleError "Error cancelling batch call:"
               (Rejected (Js.Str "Failed to cancel batch call"));
             Ui.Alert (Js.Str "Failed to cancel batch call")]), inr tt))
  /\
  (forall e,
     Ui.confirm b question = true ->
     Ui.fetch b cancel_url "DELETE" = inl e ->
     Ui.run (OutboundPage.handleCancel b batchId) s
     = ((s, [Ui.Confirm question;
             Ui.Fetch cancel_url "DELETE";
             Ui.ConsoleError "Error cancelling batch call:" e;
             Ui.Alert (Js.or_else (message_of e)
                         (Js.Str "Failed to cancel batch call"))]), inr tt))
  /\
  (forall response,
     Ui.fetch b retry_url "POST" = inr response ->
     Ui.ok response = false ->
     Ui.run (OutboundPage.handleRetry b batchId) s
     = ((s, [Ui.Fetch retry_url "POST";
             Ui.ConsoleError "Error retrying batch call:"
               (Rejected (Js.Str "Failed to retry batch call"));
             Ui.Alert (Js.Str "Failed to retry batch call")]), inr tt))
  /\
  (forall e,
     Ui.fetch b retry_url "POST" = inl e ->
     Ui.run (OutboundPage.handleRetry b batchId) s
     = ((s, [Ui.Fetch retry_url "POST";
             Ui.ConsoleError "Error retrying batch call:" e;
             Ui.Alert (Js.or_else (message_of e)
                         (Js.Str "Failed to retry batch call"))]), inr tt)).
Proof.
  cbv zeta. repeat apply conj.
  - intros response Hc Hf Hok. unfold_ui. rewrite Hc. cbn [fst snd app negb].
    rewrite Hf. cbn [fst snd app negb]. rewrite Hok. destruct s; reflexivity.
  - intros e Hc Hf. unfold_ui. rewrite Hc. cbn [fst snd app negb].
    rewrite Hf. destruct s; reflexivity.
  - intros response Hf Hok. unfold_ui. rewrite Hf. cbn [fst snd app negb].
    rewrite Hok. destruct s; reflexivity.
  - intros e Hf. unfold_ui. rewrite Hf. destruct s; reflexivity.
Qed.

(* ===================================================================== *)
(** * Properties of the detail page                                       *)
(* ===================================================================== *)

(** X28: [loadBatchCall] does nothing at all while the batch id is empty.
    With an id it asks for that batch call once, ends with the spinner off
    and throws nothing; on success the batch call is what the backend sent,
    and on failure (a rejection, a response that is not ok, a body that
    cannot be read) the batch call shown before is kept. *)
Theorem load_detail (b : Ui.Browser) (d : BatchCallDetailPage.State) :
  let url := ("/api/batch-calls/" ++ BatchCallDetailPage.batchId d)%string in
  let after := Ui.state_after (BatchCallDetailPage.loadBatchCall b) d in
  (BatchCallDetailPage.batchId d = "" ->
   Ui.run (BatchCallDetailPage.loadBatchCall b) d = ((d, []), inr tt))
  /\
  (BatchCallDetailPage.batchId d <> "" ->
   BatchCallDetailPage.loading after = false
   /\ BatchCallDetailPage.batchId after = BatchCallDetailPage.batchId d
   /\ snd (Ui.run (BatchCallDetailPage.loadBatchCall b) d) = inr tt
   /\ filter Ui.is_fetch (Ui.events_of (BatchCallDetailPage.loadBatchCall b) d)
      = [Ui.Fetch url "GET"]
   /\ match Ui.fetch b url "GET" with
      | inr response =>
          if Ui.ok response then
            match Ui.body_json response with
            | inr data => BatchCallDetailPage.batchCall after = data
            | inl _ =>
                BatchCallDetailPage.batchCall after = BatchCallDetailPage.batchCall d
            end
          else BatchCallDetailPage.batchCall after = BatchCallDetailPage.batchCall d
      | inl _ =>
          BatchCallDetailPage.batchCall after = BatchCallDetailPage.batchCall d
      end).
Proof.
  cbv zeta. split.
  - intros H. unfold_ui. rewrite H. reflexivity.
  - intros H. unfold_ui.
    destruct (BatchCallDetailPage.batchId d) as [|c i] eqn:E; [contradiction|].
    cbn [string_truthy String.eqb negb fst snd app].
    destruct (Ui.fetch b _ "GET") as [e|response]; cbn [fst snd app negb].
    + repeat split; exact E.
    + destruct (Ui.ok response); cbn [fst snd app negb];
        [|repeat split; exact E].
      destruct (Ui.body_json response); cbn [fst snd app negb];
        repeat split; exact E.
Qed.

(** X29: on the detail page neither Cancel nor Retry does anything while
    the batch id is empty. With an id, a cancel that is confirmed and
    accepted by the backend leads back to [/outbound] without reloading, and
    a retry that is accepted reloads the batch call. *)
Theorem detail_mutations (b : Ui.Browser) (d : BatchCallDetailPage.State) :
  let id := BatchCallDetailPage.batchId d in
  let question := "Are you sure you want to cancel this batch call?" in
  (id = "" ->
   Ui.run (BatchCallDetailPage.handleCancel b) d = ((d, []), inr tt)
   /\ Ui.run (BatchCallDetailPage.handleRetry b) d = ((d, []), inr tt))
  /\
  (forall response,
     id <> "" ->
     Ui.confirm b question = true ->
     Ui.fetch b ("/api/batch-calls/" ++ id) "DELETE" = inr response ->
     Ui.ok response = true ->
     Ui.run (BatchCallDetailPage.handleCancel b) d
     = ((d, [Ui.Confirm question;
             Ui.Fetch ("/api/batch-calls/" ++ id) "DELETE";
             Ui.RouterPush "/outbound"]), inr tt))
  /\
  (forall response,
     id <> "" ->
     Ui.fetch b ("/api/batch-calls/" ++ id ++ "/retry") "POST" = inr response ->
     Ui.ok response = true ->
     Ui.run (BatchCallDetailPage.handleRetry b) d
     = BatchCallDetailPage.loadBatchCall b
         (d, [Ui.Fetch ("/api/batch-calls/" ++ id ++ "/retry") "POST"])).
Proof.
  cbv zeta. repeat apply conj.
  - intros H. split; unfold_ui; rewrite H; reflexivity.
  - intros response Hn Hc Hf Hok. unfold_ui.
    destruct (BatchCallDetailPage.batchId d) as [|c i] eqn:E; [contradiction|].
    cbn [string_truthy String.eqb negb fst snd app].
    rewrite Hc. cbn [fst snd app negb]. rewrite Hf. cbn [fst snd app negb].
    rewrite Hok. destruct d; reflexivity.
  - intros response Hn Hf Hok.
    unfold Ui.run, BatchCallDetailPage.handleRetry, Ui.bind at 1, Ui.state.
    cbn [fst snd].
    destruct (BatchCallDetailPage.batchId d) as [|c i] eqn:E; [contradiction|].
    cbn [string_truthy String.eqb negb].
    unfold Ui.try_catch, Ui.bind at 1, Ui.do_fetch, Ui.bind at 1, Ui.emit, Ui.lift.
    cbn [fst snd app]. rewrite Hf, Hok. cbn [negb].
    destruct (BatchCallDetailPage.loadBatchCall b _) as [st [e|u]] eqn:L;
      [|reflexivity].
    exfalso. revert L. unfold_ui. rewrite E.
    cbn [string_truthy String.eqb negb fst snd app]. split_ui; discriminate.
Qed.





(* ===================================================================== *)
(** * The further properties at work                                      *)
(* ===================================================================== *)

Lemma refund_success_means_refunded_witness :
  exists before args refund message,
    [RefundsCreate (refund_args (Js.Obj Demo.by_charge) (Js.Str "ch_1"))]
    = (before ++ [RefundsCreate args])%list
    /\ existsb is_refund before = false
    /\ refunds_create Demo.world args = inr refund
    /\ Result (Js.Obj [("object", Js.Str "refund"); ("charge", Js.Str "ch_1")]) None
       = Result refund message.
Proof.
  exact (refund_success_means_refunded Demo.world (Js.Obj Demo.by_charge)
           [RefundsCreate (refund_args (Js.Obj Demo.by_charge) (Js.Str "ch_1"))]
           (NextResponse_json
              (Result (Js.Obj [("object", Js.Str "refund"); ("charge", Js.Str "ch_1")])
                 None)
              200 corsHeaders)
           eq_refl eq_refl).
Defined.

Lemma refund_client_error_means_no_refund_witness :
  run (handleRefundRequest Demo.world (Js.Obj Demo.no_identifier))
  = ([], inr invalid_input)
  /\ existsb is_refund [] = false.
Proof.
  split; [reflexivity|].
  exact (refund_client_error_means_no_refund Demo.world (Js.Obj Demo.no_identifier)
           [] invalid_input eq_refl (or_introl eq_refl)).
Defined.

Lemma refund_params_from_request_witness :
  let args := refund_args (Js.Obj Demo.by_charge) (Js.Str "ch_1") in
  amount args = Js.Num (Js.of_Z 500)
  /\ reason args = Js.Str "requested_by_customer"
  /\ metadata args = Js.Obj []
  /\ Js.truthy (reason args) = true
  /\ Js.truthy (metadata args) = true.
Proof.
  exact (refund_params_from_request Demo.world (Js.Obj Demo.by_charge)
           (refund_args (Js.Obj Demo.by_charge) (Js.Str "ch_1"))
           (or_introl eq_refl)).
Defined.

Lemma aliases_before_catalog_witness :
  (in_catalog Demo.world "create_refund" = true
   /\ dispatch Demo.world (Js.Str "create_refund") = inr RefundResolver)
  /\ (in_catalog (Demo.world_with_tool "my_capture_payment_intent")
        "my_capture_payment_intent" = true
      /\ dispatch (Demo.world_with_tool "my_capture_payment_intent")
           (Js.Str "my_capture_payment_intent") = inr CaptureResolver).
Proof.
  split; (split; [reflexivity|]).
  - apply (proj1 (aliases_before_catalog Demo.world "create_refund")). reflexivity.
  - apply (proj2 (proj2 (aliases_before_catalog
                           (Demo.world_with_tool "my_capture_payment_intent")
                           "my_capture_payment_intent"))).
    reflexivity.
Defined.

Lemma unknown_tool_iff_witness :
  getTools Demo2.toolkit = map openai_tool Demo2.toolkit_functions
  /\ dispatch Demo2.toolkit (Js.Str "list_customers") = inr NotFound
  /\ fst (run (POST Demo2.toolkit (Demo.request "list_customers" []))) = []
  /\ option_map res_status
       (match snd (run (POST Demo2.toolkit (Demo.request "list_customers" []))) with
        | inr r => Some r
        | inl _ => None
        end) = Some 404.
Proof.
  split; [reflexivity|]. split; [|split; reflexivity].
  apply (proj2 (proj2 (unknown_tool_iff Demo2.toolkit Demo2.toolkit_functions
                         "list_customers" eq_refl))).
  split; reflexivity.
Defined.

Lemma POST_without_secret_witness :
  run (POST Demo2.unconfigured (Demo.request "refunds_create" Demo.by_charge))
  = ([], inr not_configured)
  /\ res_status not_configured = 500.
Proof.
  exact (POST_without_secret Demo2.unconfigured
           (Demo.request "refunds_create" Demo.by_charge) eq_refl).
Defined.

Lemma POST_without_toolName_witness :
  run (POST Demo.world {| json := inr (Js.Obj [("parameters", Js.Obj Demo.by_charge)]) |})
  = ([], inr tool_name_required)
  /\ res_status tool_name_required = 400.
Proof.
  exact (POST_without_toolName Demo.world
           {| json := inr (Js.Obj [("parameters", Js.Obj Demo.by_charge)]) |}
           (Js.Obj [("parameters", Js.Obj Demo.by_charge)])
           eq_refl eq_refl eq_refl eq_refl).
Defined.

Lemma POST_unreadable_body_witness :
  run (POST Demo.world {| json := inl (Rejected (Js.Str "Unexpected end of JSON input")) |})
  = ([ConsoleError "Error calling Stripe tool:"
        (Rejected (Js.Str "Unexpected end of JSON input"))],
     inr (post_catch (Rejected (Js.Str "Unexpected end of JSON input"))))
  /\ exists e,
       run (POST Demo.world {| json := inr Js.Null |})
       = ([ConsoleError "Error calling Stripe tool:" e], inr (post_catch e))
       /\ Js.truthy (message_of e) = true.
Proof.
  split.
  - apply (proj1 (POST_unreadable_body Demo.world _ eq_refl)). reflexivity.
  - apply (proj1 (proj2 (POST_unreadable_body Demo.world {| json := inr Js.Null |}
                           eq_refl)) Js.Null); reflexivity.
Defined.

Lemma POST_runs_no_catalog_tool_witness :
  getTools Demo2.toolkit = map openai_tool Demo2.toolkit_functions
  /\ existsb is_tool_call
       (fst (run (POST Demo2.toolkit (Demo.request "list_customers" [])))) = false.
Proof.
  split; [reflexivity|].
  apply (POST_runs_no_catalog_tool Demo2.toolkit Demo2.toolkit_functions).
  reflexivity.
Defined.

Lemma refund_by_payment_intent_witness :
  run (handleRefundRequest Demo.world (Js.Obj Demo2.by_paid_intent))
  = refund_issued Demo.world
      [PaymentIntentsRetrieve (Js.Str "pi_paid")]
      (refund_args (Js.Obj Demo2.by_paid_intent) (Js.Str "ch_paid"))
      None.
Proof.
  exact (refund_by_payment_intent Demo.world Demo2.by_paid_intent
           {| PaymentIntent.latest_charge := Some (ChargeId "ch_paid") |}
           (ChargeId "ch_paid") eq_refl eq_refl eq_refl eq_refl eq_refl).
Defined.

Lemma refund_of_order_witness :
  (let fields := Demo2.by_order_and_customer "order_1" "ann@example.com" in
   run (handleRefundRequest Demo.world (Js.Obj fields))
   = refund_issued Demo.world
       [FindPaymentByIdentifier (Js.Str "order_1")]
       (refund_args (Js.Obj fields) (Js.Str "ch_o1"))
       (Some [Lit "Refund processed for order "; Subst (Js.Str "order_1")]))
  /\
  (let fields := Demo2.by_order_and_customer "order_pi" "ann@example.com" in
   run (handleRefundRequest Demo2.world (Js.Obj fields))
   = refund_issued Demo2.world
       [FindPaymentByIdentifier (Js.Str "order_pi")]
       (refund_args (Js.Obj fields) (Js.Str "ch_x"))
       (Some [Lit "Refund processed for order "; Subst (Js.Str "order_pi")]))
  /\
  (let fields := Demo2.by_order_and_customer "order_empty" "ann@example.com" in
   run (handleRefundRequest Demo2.world (Js.Obj fields))
   = refund_issued Demo2.world
       [FindPaymentByIdentifier (Js.Str "order_empty")]
       (refund_args (Js.Obj fields) (Js.Str "ch_y"))
       (Some [Lit "Refund processed for order "; Subst (Js.Str "order_empty")])).
Proof.
  assert (N1 : "ch_o1" <> "") by discriminate.
  assert (N2 : "ch_x" <> "") by discriminate.
  assert (N3 : "ch_y" <> "") by discriminate.
  split; [|split]; cbv zeta.
  - destruct (refund_of_order Demo.world
                (Demo2.by_order_and_customer "order_1" "ann@example.com")
                {| PaymentInfo.charge := Some {| Charge.id := "ch_o1" |};
                   PaymentInfo.paymentIntent := None |}
                eq_refl eq_refl eq_refl eq_refl eq_refl) as (H & _).
    exact (H {| Charge.id := "ch_o1" |} eq_refl N1).
  - destruct (refund_of_order Demo2.world
                (Demo2.by_order_and_customer "order_pi" "ann@example.com")
                {| PaymentInfo.charge := None;
                   PaymentInfo.paymentIntent :=
                     Some {| PaymentIntent.latest_charge :=
                               Some (Expanded {| Charge.id := "ch_x" |}) |} |}
                eq_refl eq_refl eq_refl eq_refl eq_refl) as (_ & H).
    exact (H {| PaymentIntent.latest_charge :=
                  Some (Expanded {| Charge.id := "ch_x" |}) |}
             (Expanded {| Charge.id := "ch_x" |}) I eq_refl eq_refl N2).
  - destruct (refund_of_order Demo2.world
                (Demo2.by_order_and_customer "order_empty" "ann@example.com")
                {| PaymentInfo.charge := Some {| Charge.id := "" |};
                   PaymentInfo.paymentIntent :=
                     Some {| PaymentIntent.latest_charge := Some (ChargeId "ch_y") |} |}
                eq_refl eq_refl eq_refl eq_refl eq_refl) as (_ & H).
    exact (H {| PaymentIntent.latest_charge := Some (ChargeId "ch_y") |}
             (ChargeId "ch_y") eq_refl eq_refl eq_refl N3).
Defined.

Lemma refund_order_without_charge_witness :
  run (handleRefundRequest Demo2.world
         (Js.Obj (Demo2.by_order_and_customer "order_bare" "ann@example.com")))
  = ([FindPaymentByIdentifier (Js.Str "order_bare")], inr no_charge_found)
  /\ res_status no_charge_found = 400.
Proof.
  exact (refund_order_without_charge Demo2.world
           (Demo2.by_order_and_customer "order_bare" "ann@example.com")
           {| PaymentInfo.charge := None; PaymentInfo.paymentIntent := None |}
           eq_refl eq_refl eq_refl eq_refl eq_refl (or_introl eq_refl)).
Defined.

Lemma refund_order_then_customer_witness :
  (run (handleRefundRequest Demo.world
          (Js.Obj (Demo2.by_order_and_customer "order_9" "eve@example.com")))
   = ([FindPaymentByIdentifier (Js.Str "order_9");
       FindCustomerByIdentifier (Js.Str "eve@example.com")],
      inr (customer_not_found (Js.Str "eve@example.com"))))
  /\
  (let fields := Demo2.by_order_and_customer "order_9" "ann@example.com" in
   run (handleRefundRequest Demo.world (Js.Obj fields))
   = refund_issued Demo.world
       [FindPaymentByIdentifier (Js.Str "order_9");
        FindCustomerByIdentifier (Js.Str "ann@example.com");
        ChargesList "cus_ann" 10]
       (refund_args (Js.Obj fields) (Js.Str "ch_a2"))
       (Some [Lit "Refund processed for customer "; Subst (Js.Str "cus_ann");
              Lit " on charge "; Subst (Js.Str "ch_a2")])).
Proof.
  split; cbv zeta.
  - destruct (refund_order_then_customer Demo.world
                (Demo2.by_order_and_customer "order_9" "eve@example.com")
                eq_refl eq_refl eq_refl eq_refl eq_refl) as (H & _).
    exact (proj1 (H eq_refl eq_refl)).
  - destruct (refund_order_then_customer Demo.world
                (Demo2.by_order_and_customer "order_9" "ann@example.com")
                eq_refl eq_refl eq_refl eq_refl eq_refl) as (_ & H).
    exact (H {| Customer.id := "cus_ann" |}
             {| ApiList.data := [ {| Charge.id := "ch_a2" |}; {| Charge.id := "ch_a1" |} ] |}
             {| Charge.id := "ch_a2" |} [ {| Charge.id := "ch_a1" |} ]
             eq_refl eq_refl eq_refl).
Defined.

Lemma refund_failure_is_logged_witness :
  exists before e,
    [PaymentIntentsRetrieve (Js.Str "pi_lost");
     ConsoleError "Error handling refund request:"
       (Rejected (Js.Str "No such payment_intent"))]
    = (before ++ [ConsoleError "Error handling refund request:" e])%list
    /\ Error (Val (Js.Str "No such payment_intent"))
       = Error (Val (Js.or_else (message_of e) (Js.Str "Failed to process refund"))).
Proof.
  exact (refund_failure_is_logged Demo.world (Js.Obj Demo2.by_lost_intent)
           [PaymentIntentsRetrieve (Js.Str "pi_lost");
            ConsoleError "Error handling refund request:"
              (Rejected (Js.Str "No such payment_intent"))]
           (refund_catch (Rejected (Js.Str "No such payment_intent")))
           eq_refl eq_refl).
Defined.


Lemma search_narrows_witness :
  map BatchCall.id (OutboundPage.filteredBatchCalls DemoUi.batches "SPR") = ["b1"; "b3"]
  /\ OutboundPage.filteredBatchCalls DemoUi.batches "spring s"
     = OutboundPage.filteredBatchCalls
         (OutboundPage.filteredBatchCalls DemoUi.batches "SPR") "spring s"
  /\ incl (OutboundPage.filteredBatchCalls DemoUi.batches "spring s")
          (OutboundPage.filteredBatchCalls DemoUi.batches "SPR").
Proof.
  split; [reflexivity|].
  exact (search_narrows DemoUi.batches "SPR" "spring s" eq_refl).
Defined.


Lemma load_list_result_witness :
  OutboundPage.batchCalls
    (Ui.state_after (OutboundPage.loadBatchCalls DemoUi.offline)
       (OutboundPage.setBatchCalls DemoUi.two_batches OutboundPage.initial))
  = Js.Arr []
  /\ OutboundPage.batchCalls
       (Ui.state_after (OutboundPage.loadBatchCalls (DemoUi.browser true))
          OutboundPage.initial)
     = field DemoUi.two_batches "batch_calls".
Proof.
  split.
  - apply (proj1 (load_list_result DemoUi.offline
                    (OutboundPage.setBatchCalls DemoUi.two_batches OutboundPage.initial))
             (Rejected (Js.Str "Failed to fetch")) eq_refl).
  - apply (proj2 (proj2 (proj2 (load_list_result (DemoUi.browser true)
                                  OutboundPage.initial)))
             {| Ui.ok := true; Ui.body_json := inr DemoUi.two_batches |}
             DemoUi.two_batches eq_refl eq_refl eq_refl eq_refl).
Defined.

Lemma cancel_declined_witness :
  Ui.run (OutboundPage.handleCancel (DemoUi.browser false) "b1") OutboundPage.initial
  = ((OutboundPage.initial,
      [Ui.Confirm "Are you sure you want to cancel this batch call?"]), inr tt)
  /\ Ui.run (BatchCallDetailPage.handleCancel (DemoUi.browser false)) (DemoUi.showing "b1")
     = ((DemoUi.showing "b1",
         [Ui.Confirm "Are you sure you want to cancel this batch call?"]), inr tt).
Proof.
  assert (N : "b1" <> "") by discriminate.
  destruct (cancel_declined (DemoUi.browser false) "b1" OutboundPage.initial
              (DemoUi.showing "b1") eq_refl) as (H1 & H2).
  split; [exact H1 | exact (H2 N)].
Defined.

Lemma list_mutation_reloads_witness :
  Ui.run (OutboundPage.handleCancel (DemoUi.browser true) "b1") OutboundPage.initial
  = OutboundPage.loadBatchCalls (DemoUi.browser true)
      (OutboundPage.initial,
       [Ui.Confirm "Are you sure you want to cancel this batch call?";
        Ui.Fetch "/api/batch-calls/b1" "DELETE"])
  /\ Ui.run (OutboundPage.handleRetry (DemoUi.browser true) "b1") OutboundPage.initial
     = OutboundPage.loadBatchCalls (DemoUi.browser true)
         (OutboundPage.initial, [Ui.Fetch "/api/batch-calls/b1/retry" "POST"]).
Proof.
  destruct (list_mutation_reloads (DemoUi.browser true) "b1" OutboundPage.initial)
    as (H1 & H2).
  split.
  - exact (H1 {| Ui.ok := true; Ui.body_json := inr (Js.Obj [("id", Js.Str "b1")]) |}
              eq_refl eq_refl eq_refl).
  - exact (H2 {| Ui.ok := true; Ui.body_json := inr (Js.Obj []) |} eq_refl eq_refl).
Defined.

Lemma list_mutation_failure_alerts_witness :
  snd (fst (Ui.run (OutboundPage.handleCancel (DemoUi.browser true) "b2")
              OutboundPage.initial))
  = [Ui.Confirm "Are you sure you want to cancel this batch call?";
     Ui.Fetch "/api/batch-calls/b2" "DELETE";
     Ui.ConsoleError "Error cancelling batch call:"
       (Rejected (Js.Str "Failed to cancel batch call"));
     Ui.Alert (Js.Str "Failed to cancel batch call")]
  /\ snd (fst (Ui.run (OutboundPage.handleRetry (DemoUi.browser true) "b2")
                 OutboundPage.initial))
     = [Ui.Fetch "/api/batch-calls/b2/retry" "POST";
        Ui.ConsoleError "Error retrying batch call:" (Rejected (Js.Str "Failed to fetch"));
        Ui.Alert (Js.Str "Failed to fetch")].
Proof.
  destruct (list_mutation_failure_alerts (DemoUi.browser true) "b2" OutboundPage.initial)
    as (H1 & _ & _ & H4).
  split.
  - rewrite (H1 {| Ui.ok := false; Ui.body_json := inr Js.Null |}
               eq_refl eq_refl eq_refl).
    reflexivity.
  - rewrite (H4 (Rejected (Js.Str "Failed to fetch")) eq_refl). reflexivity.
Defined.

Lemma load_detail_witness :
  Ui.run (BatchCallDetailPage.loadBatchCall (DemoUi.browser true))
    BatchCallDetailPage.initial
  = ((BatchCallDetailPage.initial, []), inr tt)
  /\ BatchCallDetailPage.batchCall
       (Ui.state_after (BatchCallDetailPage.loadBatchCall (DemoUi.browser true))
          (DemoUi.showing "b2"))
     = Js.Obj [("id", Js.Str "b2")].
Proof.
  split.
  - exact (proj1 (load_detail (DemoUi.browser true) BatchCallDetailPage.initial)
             eq_refl).
  - assert (N : BatchCallDetailPage.batchId (DemoUi.showing "b2") <> "")
      by discriminate.
    destruct (proj2 (load_detail (DemoUi.browser true) (DemoUi.showing "b2")) N)
      as (_ & _ & _ & _ & H).
    exact H.
Defined.

Lemma detail_mutations_witness :
  Ui.run (BatchCallDetailPage.handleRetry (DemoUi.browser true))
    BatchCallDetailPage.initial
  = ((BatchCallDetailPage.initial, []), inr tt)
  /\ Ui.run (BatchCallDetailPage.handleCancel (DemoUi.browser true)) (DemoUi.showing "b1")
     = ((DemoUi.showing "b1",
         [Ui.Confirm "Are you sure you want to cancel this batch call?";
          Ui.Fetch "/api/batch-calls/b1" "DELETE";
          Ui.RouterPush "/outbound"]), inr tt).
Proof.
  split.
  - exact (proj2 (proj1 (detail_mutations (DemoUi.browser true)
                           BatchCallDetailPage.initial) eq_refl)).
  - assert (N : BatchCallDetailPage.batchId (DemoUi.showing "b1") <> "")
      by discriminate.
    exact (proj1 (proj2 (detail_mutations (DemoUi.browser true) (DemoUi.showing "b1")))
             {| Ui.ok := true; Ui.body_json := inr (Js.Obj [("id", Js.Str "b1")]) |}
             N eq_refl eq_refl eq_refl).
Defined.

